(** * Metadata script retriever: a shallow embedding and its properties

    Source: [google_compute_engine/metadata_scripts/script_retriever.py].

    The Python code is embedded as state-passing functions in a small
    state-and-exception monad [Py].  What the code reaches outside itself
    for (the metadata watcher, [urlopen], [urlretrieve]) is answered by an
    environment [Env] that sees the whole history of calls made so far, so
    that a fetch may fail twice and then succeed.  The retriever's own
    state (the cached token), the files it stages and the calls it makes
    are fields of [World]. *)

From Stdlib Require Import ZArith Ascii String.
From stdpp Require Import base option gmap strings list fin_maps fin_sets infinite.

Open Scope string_scope.
Open Scope list_scope.

(** ** Python values the code handles *)

(** Truthiness of [None]-or-string and [None]-or-dict values, as tested by
    [if x:], [not x] and [x or y]. *)
Definition str_truthy (o : option string) : bool :=
  match o with
  | Some (String _ _) => true
  | _ => false
  end.

Definition dict_truthy {V : Type} (d : gmap string V) : bool :=
  negb (bool_decide (d = ∅)).

Definition opt_dict_truthy {V : Type} (o : option (gmap string V)) : bool :=
  match o with
  | Some d => dict_truthy d
  | None => false
  end.

(** [x or {}] *)
Definition or_empty {V : Type} (o : option (gmap string V)) : gmap string V :=
  if opt_dict_truthy o then default ∅ o else ∅.

(** [str.isspace] on the code points below 256: TAB..CR, FS..US, SPACE,
    NEL and NBSP. *)
Definition isspace (c : ascii) : bool :=
  let n := nat_of_ascii c in
  (((9 <=? n) && (n <=? 13)) || ((28 <=? n) && (n <=? 32))
   || (n =? 133) || (n =? 160))%nat.

(** [str.lstrip()] with no argument. *)
Fixpoint lstrip (s : string) : string :=
  match s with
  | String c s' => if isspace c then lstrip s' else s
  | EmptyString => EmptyString
  end.

(** [str.startswith(prefix)] *)
Fixpoint startswith (prefix s : string) : bool :=
  match prefix, s with
  | EmptyString, _ => true
  | String a p', String b s' => if Ascii.eqb a b then startswith p' s' else false
  | String _ _, EmptyString => false
  end.

Fixpoint drop_str (n : nat) (s : string) : string :=
  match n, s with
  | O, _ => s
  | S n', String _ s' => drop_str n' s'
  | S _, EmptyString => EmptyString
  end.

Fixpoint string_forallb (f : ascii -> bool) (s : string) : bool :=
  match s with
  | EmptyString => true
  | String c s' => f c && string_forallb f s'
  end.

(** ** Regular expressions, as far as the patterns of [_DownloadScript]
    need them

    [re_match r s] is [re.compile(r'\A' + r + r'\Z').match(s)]: with both
    anchors a match exists exactly when the whole string is in the
    language of [r], which the derivative matcher decides. *)
Inductive regex : Type :=
| Void
| Eps
| Lit (c : ascii)
| Class (charset : ascii -> bool)
| Cat (r1 r2 : regex)
| Alt (r1 r2 : regex)
| Star (r : regex).

Definition Opt (r : regex) : regex := Alt r Eps.
Definition Plus (r : regex) : regex := Cat r (Star r).

Fixpoint lit (s : string) : regex :=
  match s with
  | EmptyString => Eps
  | String c s' => Cat (Lit c) (lit s')
  end.

Fixpoint nullable (r : regex) : bool :=
  match r with
  | Void => false
  | Eps => true
  | Lit _ => false
  | Class _ => false
  | Cat r1 r2 => nullable r1 && nullable r2
  | Alt r1 r2 => nullable r1 || nullable r2
  | Star _ => true
  end.

Fixpoint deriv (a : ascii) (r : regex) : regex :=
  match r with
  | Void => Void
  | Eps => Void
  | Lit c => if Ascii.eqb a c then Eps else Void
  | Class charset => if charset a then Eps else Void
  | Cat r1 r2 =>
      if nullable r1 then Alt (Cat (deriv a r1) r2) (deriv a r2)
      else Cat (deriv a r1) r2
  | Alt r1 r2 => Alt (deriv a r1) (deriv a r2)
  | Star r1 => Cat (deriv a r1) (Star r1)
  end.

Fixpoint re_match (r : regex) (s : string) : bool :=
  match s with
  | EmptyString => nullable r
  | String a s' => re_match (deriv a r) s'
  end.

(** The language of a pattern. *)
Inductive Matches : regex -> string -> Prop :=
| MEps : Matches Eps ""
| MLit c : Matches (Lit c) (String c "")
| MClass (charset : ascii -> bool) c :
    charset c = true -> Matches (Class charset) (String c "")
| MCat r1 r2 s1 s2 :
    Matches r1 s1 -> Matches r2 s2 -> Matches (Cat r1 r2) (s1 +:+ s2)
| MAltL r1 r2 s : Matches r1 s -> Matches (Alt r1 r2) s
| MAltR r1 r2 s : Matches r2 s -> Matches (Alt r1 r2) s
| MStarNil r : Matches (Star r) ""
| MStarCons r s1 s2 :
    Matches r s1 -> Matches (Star r) s2 -> Matches (Star r) (s1 +:+ s2).

(** Character classes of the patterns. *)
Definition in_range (lo hi : ascii) (c : ascii) : bool :=
  ((nat_of_ascii lo <=? nat_of_ascii c)
   && (nat_of_ascii c <=? nat_of_ascii hi))%nat.

Fixpoint one_of (cs : string) (c : ascii) : bool :=
  match cs with
  | EmptyString => false
  | String x cs' => Ascii.eqb c x || one_of cs' c
  end.

(** [[a-z0-9]] *)
Definition lower_alnum (c : ascii) : bool :=
  in_range "a" "z" c || in_range "0" "9" c.

(** [[-_.a-z0-9]] *)
Definition bucket_char (c : ascii) : bool :=
  one_of "-_." c || lower_alnum c.

(** [[^\*\?]] *)
Definition not_wildcard (c : ascii) : bool := negb (one_of "*?" c).

(** [header = r'http[s]?://'] *)
Definition header : regex :=
  Cat (lit "http") (Cat (Opt (Class (one_of "s"))) (lit "://")).

(** [domain = r'storage\.googleapis\.com'] *)
Definition domain : regex := lit "storage.googleapis.com".

(** [bucket = r'(?P<bucket>[a-z0-9][-_.a-z0-9]*[a-z0-9])'] *)
Definition bucket : regex :=
  Cat (Class lower_alnum) (Cat (Star (Class bucket_char)) (Class lower_alnum)).

(** [obj = r'(?P<obj>[^\*\?]+)'] *)
Definition obj : regex := Plus (Class not_wildcard).

(** [r'\A%s%s\.%s/%s\Z' % (header, bucket, domain, obj)] *)
Definition gs_regex_host : regex :=
  Cat header (Cat bucket (Cat (lit ".") (Cat domain (Cat (lit "/") obj)))).

(** [r'\A%s(commondata)?%s/%s/%s\Z' % (header, domain, bucket, obj)] *)
Definition gs_regex_path : regex :=
  Cat header
    (Cat (Opt (lit "commondata"))
       (Cat domain (Cat (lit "/") (Cat bucket (Cat (lit "/") obj))))).

(** [re.sub('^gs://', 'https://storage.googleapis.com/', url)]: without
    [re.MULTILINE] the pattern can only match at offset 0, so at most the
    prefix is replaced. *)
Definition re_sub_gs (url : string) : string :=
  if startswith "gs://" url
  then "https://storage.googleapis.com/" +:+ drop_str 5 url
  else url.

(** ** Exceptions and the monad *)

Inductive exn_class : Type :=
| HTTPException
| socket_error
| URLError
| KeyError
| TypeError
| OtherException (name : string).

(** An exception object: the clause it is an instance of, and [str(e)]. *)
Record exn : Type := Exn { exn_cls : exn_class; exn_str : string }.

(** [isinstance(e, (httpclient.HTTPException, socket.error, urlerror.URLError))] *)
Definition is_unavailable (e : exn) : bool :=
  match exn_cls e with
  | HTTPException | socket_error | URLError => true
  | _ => false
  end.

Definition is_KeyError (e : exn) : bool :=
  match exn_cls e with
  | KeyError => true
  | _ => false
  end.

Inductive result (A : Type) : Type :=
| Returns (a : A)
| Raises (e : exn).
Arguments Returns {A} a.
Arguments Raises {A} e.

Definition Py (S A : Type) : Type := S -> result A * S.

Definition ret {S A : Type} (a : A) : Py S A := fun s => (Returns a, s).

Definition raise {S A : Type} (e : exn) : Py S A := fun s => (Raises e, s).

Definition bind {S A B : Type} (m : Py S A) (k : A -> Py S B) : Py S B :=
  fun s =>
    match m s with
    | (Returns a, s') => k a s'
    | (Raises e, s') => (Raises e, s')
    end.

(** [try: m  except C1 as e: h1(e)  except C2 as e: h2(e) ...]: the first
    clause whose classes the exception is an instance of handles it; what a
    handler raises is not handled by the clauses after it. *)
Fixpoint handle {S A : Type} (clauses : list ((exn -> bool) * (exn -> Py S A)))
    (e : exn) : Py S A :=
  match clauses with
  | [] => raise e
  | (classes, handler) :: rest =>
      if classes e then handler e else handle rest e
  end.

Definition try_except {S A : Type} (m : Py S A)
    (clauses : list ((exn -> bool) * (exn -> Py S A))) : Py S A :=
  fun s =>
    match m s with
    | (Returns a, s') => (Returns a, s')
    | (Raises e, s') => handle clauses e s'
    end.

(** [except Exception]: every exception of the model is one. *)
Definition is_Exception (e : exn) : bool := true.

Declare Scope py_scope.
Delimit Scope py_scope with py.
Notation "'let!' x ':=' m 'in' k" := (bind m (fun x => k))
  (at level 10, x name, m at level 100, k at level 200) : py_scope.
Notation "m >>> k" := (bind m (fun _ => k))
  (at level 100, right associativity) : py_scope.
Open Scope py_scope.

(** ** The retry decorator *)

Section RetryOnUnavailable.
Context {S A : Type}.
(** [time.sleep] *)
Variable time_sleep : Z -> S -> S.
(** [func], applied to the [args] and [kwargs] of the call *)
Variable func : Py S A.

(** [raise final_exception]; raising [None] is itself a [TypeError]. *)
Definition raise_final (final_exception : option exn) : Py S A :=
  match final_exception with
  | Some e => raise e
  | None => raise (Exn TypeError "exceptions must derive from BaseException")
  end.

(** The [for _ in range(3)] loop, over the remaining range. *)
Fixpoint Wrapper_loop (rng : list nat) (final_exception : option exn)
    : Py S A :=
  match rng with
  | [] => raise_final final_exception
  | _ :: rng' =>
      fun s =>
        match func s with
        | (Returns response, s') => (Returns response, s')
        | (Raises e, s') =>
            if is_unavailable e
            then Wrapper_loop rng' (Some e) (time_sleep 5 s')
            else (Raises e, s')
        end
  end.

Definition Wrapper : Py S A := Wrapper_loop (seq 0 3) None.
End RetryOnUnavailable.

Definition _RetryOnUnavailable {S A Args : Type} (time_sleep : Z -> S -> S)
    (func : Args -> Py S A) : Args -> Py S A :=
  fun args => Wrapper time_sleep (func args).

(** ** The world of a retriever *)

(** A file path: [os.path.join(directory, name)]. *)
Abbreviation path := (string * string)%type.

Definition path_str (p : path) : string := p.1 +:+ "/" +:+ p.2.

(** [urlrequest.Request], with the headers added by
    [add_unredirected_header] in order. *)
Record Request : Type := MkRequest {
  full_url : string;
  unredirected_hdrs : list (string * string)
}.

Definition add_unredirected_header (key val : string) (r : Request) : Request :=
  MkRequest (full_url r) (unredirected_hdrs r ++ [(key, val)]).

(** The request of [_DownloadAuthUrl], lines 112-114. *)
Definition auth_request (url tok : string) : Request :=
  add_unredirected_header "Authorization" tok
    (add_unredirected_header "Metadata-Flavor" "Google" (MkRequest url [])).

Inductive log_level : Type := INFO | WARNING.

(** What the retriever does to the outside, in the order it does it. *)
Inductive event : Type :=
| Log (level : log_level) (msg : string)
| Sleep (secs : Z)
| GetMetadataCall (metadata_key : option string) (recursive retry : option bool)
| UrlOpen (request : Request)
| UrlRetrieve (url : string) (dest : path).

(** The metadata tree: [tree['instance']['attributes']] is a dict from
    strings to strings. *)
Abbreviation attributes := (gmap string string).
Abbreviation metadata_tree := (gmap string (gmap string (gmap string string))).

(** [urlretrieve(url, dest)] either stores the data, or raises, before
    anything or after part of the data was stored. *)
Inductive retrieved : Type :=
| Stored (data : string)
| Failed (e : exn) (partial : option string).

(** The collaborators.  Each answer may depend on the history of events. *)
Record Env : Type := MkEnv {
  (** [MetadataWatcher.GetMetadata()] *)
  metadata_server : list event -> option metadata_tree;
  (** [MetadataWatcher.GetMetadata(key, recursive=False, retry=False)] *)
  metadata_server_key : list event -> string -> option attributes;
  (** [urlrequest.urlopen(request)]; the response object is represented by
      what [.read().decode('utf-8')] gives on it *)
  url_open : list event -> Request -> result (result string);
  (** [urlretrieve.urlretrieve(url, dest)] *)
  url_retrieve : list event -> string -> retrieved
}.

Record World : Type := MkWorld {
  (** [self.token] *)
  token : option string;
  (** the file system: the content of every file *)
  files : gmap path string;
  (** the events so far, oldest first *)
  events : list event
}.

Definition emit (ev : event) (w : World) : World :=
  MkWorld (token w) (files w) (events w ++ [ev]).

Definition write_file (p : path) (data : string) (w : World) : World :=
  MkWorld (token w) (<[p := data]> (files w)) (events w).

Definition set_token (t : string) (w : World) : World :=
  MkWorld (Some t) (files w) (events w).

(** [time.sleep(secs)] *)
Definition time_sleep (secs : Z) (w : World) : World := emit (Sleep secs) w.

Definition logger_info (msg : string) : Py World unit :=
  fun w => (Returns tt, emit (Log INFO msg) w).

Definition logger_warning (msg : string) : Py World unit :=
  fun w => (Returns tt, emit (Log WARNING msg) w).

(** The names present in a directory. *)
Definition listdir (dir : string) (fs : gmap path string) : gset string :=
  set_map snd (filter (fun p : path => p.1 = dir) (dom fs)).

(** [tempfile.NamedTemporaryFile(dir=dest_dir, delete=False)]: a new, empty
    file under a name that is not in use in [dest_dir].  The directory is
    taken to exist and to be writable. *)
Definition NamedTemporaryFile (dest_dir : string) : Py World path :=
  fun w =>
    let p := (dest_dir, fresh (listdir dest_dir (files w))) in
    (Returns p, write_file p "" w).

(** [with open(dest, 'w') as f: f.write(content)] and the write of a
    [NamedTemporaryFile(mode='w')] that is closed. *)
Definition write (dest : path) (content : string) : Py World unit :=
  fun w => (Returns tt, write_file dest content w).

(** [d[k]] *)
Definition subscript {S V : Type} (d : gmap string V) (k : string) : Py S V :=
  match d !! k with
  | Some v => ret v
  | None => raise (Exn KeyError k)
  end.

Section ScriptRetriever.
Variable env : Env.
(** [self.script_type] *)
Variable script_type : string.

Definition token_metadata_key : string :=
  "instance/service-accounts/default/token".

(** [self.watcher.GetMetadata()] *)
Definition watcher_GetMetadata : Py World (option metadata_tree) :=
  fun w =>
    (Returns (metadata_server env (events w)),
     emit (GetMetadataCall None None None) w).

(** [self.watcher.GetMetadata(key, recursive=.., retry=..)] *)
Definition watcher_GetMetadata_key (key : string) (recursive retry : bool)
    : Py World (option attributes) :=
  fun w =>
    (Returns (metadata_server_key env (events w) key),
     emit (GetMetadataCall (Some key) (Some recursive) (Some retry)) w).

Definition urlopen (request : Request) : Py World (result string) :=
  fun w =>
    (url_open env (events w) request, emit (UrlOpen request) w).

Definition urlretrieve (args : string * path) : Py World unit :=
  let '(url, dest) := args in
  fun w =>
    let w' := emit (UrlRetrieve url dest) w in
    match url_retrieve env (events w) url with
    | Stored data => (Returns tt, write_file dest data w')
    | Failed e None => (Raises e, w')
    | Failed e (Some data) => (Raises e, write_file dest data w')
    end.

(** [response.read().decode('utf-8')] *)
Definition read_decode (response : result string) : Py World string :=
  fun w => (response, w).

Definition _UrlOpenWithRetry : Request -> Py World (result string) :=
  _RetryOnUnavailable time_sleep urlopen.

Definition _UrlRetrieveWithRetry : string * path -> Py World unit :=
  _RetryOnUnavailable time_sleep urlretrieve.

Definition _DownloadUrl (url dest_dir : string) : Py World (option path) :=
  let! dest := NamedTemporaryFile dest_dir in
  logger_info ("Downloading url from " +:+ url +:+ " to "
               +:+ path_str dest +:+ ".") >>>
  try_except
    (_UrlRetrieveWithRetry (url, dest) >>> ret (Some dest))
    [ (is_unavailable,
       fun e =>
         logger_warning ("Could not download " +:+ url +:+ ". "
                         +:+ exn_str e +:+ ".") >>>
         ret None);
      (is_Exception,
       fun e =>
         logger_warning ("Exception downloading " +:+ url +:+ ". "
                         +:+ exn_str e +:+ ".") >>>
         ret None) ].

(** ['%s %s' % (response.get('token_type', ''),
                response.get('access_token', ''))] *)
Definition compose_token (response : attributes) : string :=
  default "" (response !! "token_type") +:+ " "
  +:+ default "" (response !! "access_token").

(** [_UrlOpenWithRetry(request).read().decode('utf-8')] *)
Definition fetch_content (request : Request) : Py World string :=
  let! response := _UrlOpenWithRetry request in
  read_decode response.

(** Lines 111-123 of [_DownloadAuthUrl]: the fetch with the token, which
    is [self.token] at that point. *)
Definition auth_fetch (url : string) (dest : path) (tok : string)
    : Py World (option path) :=
  let! fetched :=
    try_except
      (let! content := fetch_content (auth_request url tok) in
       ret (Some content))
      [ (is_Exception,
         fun e =>
           logger_warning ("Could not download " +:+ url +:+ ". "
                           +:+ exn_str e +:+ ".") >>>
           ret None) ] in
  match fetched with
  | None => ret None
  | Some content => write dest content >>> ret (Some dest)
  end.

Definition _DownloadAuthUrl (url dest_dir : string)
    : Py World (option path) :=
  let! dest := NamedTemporaryFile dest_dir in
  logger_info ("Downloading url from " +:+ url +:+ " to "
               +:+ path_str dest +:+ " using authentication token.") >>>
  fun w =>
    if negb (str_truthy (token w)) then
      (let! response :=
         watcher_GetMetadata_key token_metadata_key false false in
       if negb (opt_dict_truthy response) then
         logger_info ("Authentication token not found. "
                      +:+ "Attempting unauthenticated download.") >>>
         _DownloadUrl url dest_dir
       else
         let tok := compose_token (default ∅ response) in
         (fun w' => (Returns tt, set_token tok w')) >>>
         auth_fetch url dest tok) w
    else auth_fetch url dest (default "" (token w)) w.

Definition _DownloadScript (url dest_dir : string)
    : Py World (option path) :=
  if startswith "gs://" url then
    _DownloadAuthUrl (re_sub_gs url) dest_dir
  else if re_match gs_regex_host url then
    _DownloadAuthUrl url dest_dir
  else if re_match gs_regex_path url then
    _DownloadAuthUrl url dest_dir
  else
    _DownloadUrl url dest_dir.

(** Lines 213-220 of [_GetAttributeScripts]: the inline script. *)
Definition stage_inline (attribute_data : attributes) (dest_dir : string)
    (script_dict : gmap string (option path))
    : Py World (gmap string (option path)) :=
  let metadata_key := script_type +:+ "-script" in
  let metadata_value := attribute_data !! metadata_key in
  if str_truthy metadata_value then
    logger_info ("Found " +:+ metadata_key +:+ " in metadata.") >>>
    let! dest := NamedTemporaryFile dest_dir in
    write dest (lstrip (default "" metadata_value)) >>>
    ret (<[metadata_key := Some dest]> script_dict)
  else ret script_dict.

(** Lines 222-229 of [_GetAttributeScripts]: the script behind a URL. *)
Definition stage_url (attribute_data : attributes) (dest_dir : string)
    (script_dict : gmap string (option path))
    : Py World (gmap string (option path)) :=
  let metadata_key := script_type +:+ "-script-url" in
  let metadata_value := attribute_data !! metadata_key in
  if str_truthy metadata_value then
    logger_info ("Found " +:+ metadata_key +:+ " in metadata.") >>>
    let! downloaded_dest :=
      _DownloadScript (default "" metadata_value) dest_dir in
    (if bool_decide (downloaded_dest = None)
     then logger_warning "Failed to download metadata script."
     else ret tt) >>>
    ret (<[metadata_key := downloaded_dest]> script_dict)
  else ret script_dict.

(** A script mapping gives, for a metadata key, the path of the staged
    file or [None]. *)
Definition _GetAttributeScripts (attribute_data : option attributes)
    (dest_dir : string) : Py World (gmap string (option path)) :=
  let script_dict : gmap string (option path) := ∅ in
  let attribute_data := or_empty attribute_data in
  let! script_dict := stage_inline attribute_data dest_dir script_dict in
  let! script_dict := stage_url attribute_data dest_dir script_dict in
  ret script_dict.

(** [metadata_dict[top]['attributes']] in its [try]/[except KeyError]. *)
Definition attributes_of (metadata_dict : metadata_tree) (top what : string)
    : Py World (option attributes) :=
  try_except
    (let! node := subscript metadata_dict top in
     let! data := subscript node "attributes" in
     ret (Some data))
    [ (is_KeyError,
       fun _ =>
         logger_warning (what +:+ " attributes were not found.") >>>
         ret None) ].

Definition GetScripts (dest_dir : string)
    : Py World (gmap string (option path)) :=
  let! response := watcher_GetMetadata in
  let metadata_dict := or_empty response in
  let! instance_data := attributes_of metadata_dict "instance" "Instance" in
  let! project_data := attributes_of metadata_dict "project" "Project" in
  let! scripts := _GetAttributeScripts instance_data dest_dir in
  if dict_truthy scripts then ret scripts
  else _GetAttributeScripts project_data dest_dir.
End ScriptRetriever.

(** ** Counting the attempts of the retry decorator

    A wrapped operation and [time.sleep] are made to record, next to the
    state they act on, that they ran. *)

Inductive retry_event (A : Type) : Type :=
| Attempt (outcome : result A)
| Slept (secs : Z).
Arguments Attempt {A} outcome.
Arguments Slept {A} secs.

Definition recording_func {S A : Type} (func : Py S A)
    : Py (list (retry_event A) * S) A :=
  fun '(tr, s) =>
    let '(r, s') := func s in (r, (tr ++ [Attempt r], s')).

Definition recording_sleep {S A : Type} (time_sleep : Z -> S -> S)
    : Z -> list (retry_event A) * S -> list (retry_event A) * S :=
  fun secs '(tr, s) => (tr ++ [Slept secs], time_sleep secs s).

(** An outcome that ends the loop: a value, or an exception that is not
    retried. *)
Definition ends_loop {A : Type} (r : result A) : Prop :=
  match r with
  | Returns _ => True
  | Raises e => is_unavailable e = false
  end.

(** ** The URL forms of Google Storage, as the documentation words them *)

(** [<bucket>]: a lower-case letter or digit, then any of [-_.a-z0-9], then
    a lower-case letter or digit again. *)
Definition is_bucket (b : string) : Prop :=
  exists c1 mid c2,
    b = String c1 (mid +:+ String c2 "")
    /\ lower_alnum c1 = true
    /\ string_forallb bucket_char mid = true
    /\ lower_alnum c2 = true.

(** [<object>]: not empty, no wildcard character. *)
Definition is_object (o : string) : Prop :=
  o <> "" /\ string_forallb not_wildcard o = true.

Definition is_scheme (s : string) : Prop := s = "http" \/ s = "https".

(** [http(s)://<bucket>.storage.googleapis.com/<object>] *)
Definition host_style (url : string) : Prop :=
  exists scheme b o,
    is_scheme scheme /\ is_bucket b /\ is_object o
    /\ url = scheme +:+ "://" +:+ b +:+ ".storage.googleapis.com/" +:+ o.

(** [http(s)://(commondata)storage.googleapis.com/<bucket>/<object>] *)
Definition path_style (url : string) : Prop :=
  exists scheme alias b o,
    is_scheme scheme /\ (alias = "" \/ alias = "commondata")
    /\ is_bucket b /\ is_object o
    /\ url = scheme +:+ "://" +:+ alias +:+ "storage.googleapis.com/"
             +:+ b +:+ "/" +:+ o.

(** ** Sample worlds *)

(** A retriever that has not fetched a token, on an empty file system. *)
Definition fresh_world : World := MkWorld None ∅ [].

(** Nothing can be reached: no metadata, every fetch fails. *)
Definition offline : Env :=
  MkEnv (fun _ => None) (fun _ _ => None)
    (fun _ _ => Raises (Exn URLError "unreachable"))
    (fun _ _ => Failed (Exn URLError "unreachable") None).

(** An instance and a project, given their attributes; every fetch fails. *)
Definition serving (instance_attrs project_attrs : attributes) : Env :=
  MkEnv
    (fun _ => Some {[ "instance" := {[ "attributes" := instance_attrs ]};
                      "project" := {[ "attributes" := project_attrs ]} ]})
    (fun _ _ => None)
    (fun _ _ => Raises (Exn URLError "unreachable"))
    (fun _ _ => Failed (Exn URLError "unreachable") None).

Definition is_url_open (ev : event) : bool :=
  match ev with
  | UrlOpen _ => true
  | _ => false
  end.

(** The first two requests fail with a network exception, the later ones
    are answered. *)
Definition flaky : Env :=
  MkEnv (fun _ => None) (fun _ _ => None)
    (fun history _ =>
       if (length (List.filter is_url_open history) <? 2)%nat
       then Raises (Exn socket_error "connection reset")
       else Returns (Returns "echo hi"))
    (fun _ _ => Failed (Exn URLError "unreachable") None).

(** ** The events a call adds *)

Definition is_metadata_call (ev : event) : bool :=
  match ev with
  | GetMetadataCall _ _ _ => true
  | _ => false
  end.

(** [w'] is [w] after more events, each of them satisfying [P]. *)
Definition grows (P : event -> Prop) (w w' : World) : Prop :=
  exists added, events w' = events w ++ added /\ Forall P added.

(** The events of a plain download to [dest]: log lines, sleeps and
    fetches into [dest]. *)
Definition plain_event (dest : path) (ev : event) : Prop :=
  match ev with
  | Log _ _ | Sleep _ => True
  | UrlRetrieve _ p => p = dest
  | _ => False
  end.

(** The events of a fetch with the token [tok]: log lines, sleeps and
    requests that carry [Authorization: tok]. *)
Definition auth_event (tok : string) (ev : event) : Prop :=
  match ev with
  | Log _ _ | Sleep _ => True
  | UrlOpen request => ("Authorization", tok) ∈ unredirected_hdrs request
  | _ => False
  end.

(** The last thing that happened is a warning in the log. *)
Definition warned (w : World) : Prop :=
  exists msg, last (events w) = Some (Log WARNING msg).

(** From [w] to [w'] the token is kept, no file but [dest] is touched,
    [dest] is not removed, and the events added satisfy [P]. *)
Definition steps (P : event -> Prop) (dest : path) (w w' : World) : Prop :=
  token w' = token w
  /\ (forall q, q <> dest -> files w' !! q = files w !! q)
  /\ (is_Some (files w !! dest) -> is_Some (files w' !! dest))
  /\ grows P w w'.

(** What a download leaves behind: the files that were there are as they
    were, and the result is either a new file in [dest_dir] or [None] after
    a warning. *)
Definition staged (dest_dir : string) (w : World) (r : option path)
    (w' : World) : Prop :=
  (forall q, is_Some (files w !! q) -> files w' !! q = files w !! q)
  /\ match r with
     | Some p =>
         p.1 = dest_dir /\ files w !! p = None /\ is_Some (files w' !! p)
     | None => warned w'
     end.

(** The world after [GetScripts] has looked for the attributes under
    [what]: a warning is logged when there are none. *)
Definition warn_missing (what : string) (data : option attributes)
    (w : World) : World :=
  match data with
  | Some _ => w
  | None => emit (Log WARNING (what +:+ " attributes were not found.")) w
  end.

(** [tree[top]['attributes']], or [None] on a [KeyError]. *)
Definition attributes_in (tree : metadata_tree) (top : string)
    : option attributes :=
  tree !! top ≫= (.!! "attributes").

(** The attributes give this script type an inline script or a URL. *)
Definition declares (script_type : string) (attrs : attributes) : bool :=
  str_truthy (attrs !! (script_type +:+ "-script"))
  || str_truthy (attrs !! (script_type +:+ "-script-url")).

(** ** Shapes of a run *)

(** The events of a retried operation whose every attempt is the event
    [attempt]: one to three attempts, a sleep of 5 seconds after each one
    that failed with a network exception. *)
Definition retry_run (attempt : event) (body : list event) : Prop :=
  body = [attempt]
  \/ body = [attempt; Sleep 5; attempt]
  \/ body = [attempt; Sleep 5; attempt; Sleep 5; attempt]
  \/ body = [attempt; Sleep 5; attempt; Sleep 5; attempt; Sleep 5].

(** An event of a download: any event but a metadata call other than the
    query for the token, not recursive and without retry. *)
Definition download_event (ev : event) : Prop :=
  match ev with
  | GetMetadataCall key recursive retry =>
      key = Some "instance/service-accounts/default/token"
      /\ recursive = Some false /\ retry = Some false
  | _ => True
  end.


(** [declares] on attributes that may be absent. *)
Definition declares_any (script_type : string) (data : option attributes)
    : bool :=
  match data with
  | Some attrs => declares script_type attrs
  | None => false
  end.

(** Every fetch succeeds with the same content; there is no metadata. *)
Definition online : Env :=
  MkEnv (fun _ => None) (fun _ _ => None)
    (fun _ _ => Returns (Returns "echo fetched"))
    (fun _ _ => Stored "echo fetched").

(** Every request is answered, but reading the answer times out. *)
Definition stalling : Env :=
  MkEnv (fun _ => None) (fun _ _ => None)
    (fun _ _ => Returns (Raises (Exn socket_error "timed out")))
    (fun _ _ => Stored "echo fetched").

(** A retriever that has cached a token. *)
Definition token_world : World := MkWorld (Some "Bearer abc") ∅ [].

(** ** Network set-up on SUSE

    Source: [distro_lib/sles_12/utils.py] and [distro_lib/sles_11/utils.py].
    The host is the content of its files and the log lines and commands so
    far; how a command ends is given by [status], from the history and the
    command line: [None] for exit status 0, otherwise the exception that
    [subprocess.check_call] raises. *)

(** An argument of a log line: a device name or a list of them. *)
Inductive log_arg : Type :=
| Name (interface : string)
| Names (interfaces : list string).

Inductive host_event : Type :=
| HostLog (level : log_level) (format : string) (args : list log_arg)
| CheckCall (argv : list string).

Record Host : Type := MkHost {
  host_files : gmap string string;
  host_events : list host_event
}.

Definition host_emit (ev : host_event) (h : Host) : Host :=
  MkHost (host_files h) (host_events h ++ [ev]).

(** [logger.info(format, arg)] and [logger.warning(format, arg)] *)
Definition host_info (format : string) (arg : log_arg) : Py Host unit :=
  fun h => (Returns tt, host_emit (HostLog INFO format [arg]) h).

Definition host_warning (format : string) (arg : log_arg) : Py Host unit :=
  fun h => (Returns tt, host_emit (HostLog WARNING format [arg]) h).

(** [with open(name, 'w') as f: f.write(content)]; the directory is taken
    to exist. *)
Definition host_write (name content : string) : Py Host unit :=
  fun h => (Returns tt, MkHost (<[name := content]> (host_files h))
                          (host_events h)).

(** [except subprocess.CalledProcessError] *)
Definition is_CalledProcessError (e : exn) : bool :=
  match exn_cls e with
  | OtherException name => String.eqb name "CalledProcessError"
  | _ => false
  end.

(** [str.endswith(suffix)] for a suffix of one character. *)
Fixpoint ends_with_char (c : ascii) (s : string) : bool :=
  match s with
  | EmptyString => false
  | String x EmptyString => Ascii.eqb x c
  | String _ s' => ends_with_char c s'
  end.

(** [os.path.join(a, b)] of [posixpath]. *)
Definition os_path_join (a b : string) : string :=
  if startswith "/" b then b
  else if bool_decide (a = "") || ends_with_char "/" a then a +:+ b
  else a +:+ "/" +:+ b.

Definition newline : string := String "010"%char "".

(** [sep.join(items)] *)
Fixpoint str_join (sep : string) (items : list string) : string :=
  match items with
  | [] => ""
  | [x] => x
  | x :: rest => x +:+ sep +:+ str_join sep rest
  end.

(** [[i for i in interfaces if i != 'eth0']] *)
Definition interfaces_to_up (interfaces : list string) : list string :=
  List.filter (fun i => negb (String.eqb i "eth0")) interfaces.

Section Subprocess.
Variable status : list host_event -> list string -> option exn.

(** [subprocess.check_call(argv)] *)
Definition check_call (argv : list string) : Py Host unit :=
  fun h =>
    match status (host_events h) argv with
    | None => (Returns tt, host_emit (CheckCall argv) h)
    | Some e => (Raises e, host_emit (CheckCall argv) h)
    end.
End Subprocess.

Module Sles12.
Section Utils.
Variable status : list host_event -> list string -> option exn.
(** [constants.LOCALBASE] *)
Variable LOCALBASE : string.

Definition network_path : string := LOCALBASE +:+ "/etc/sysconfig/network".

Definition interface_content (interface : string) : list string :=
  [ "# Added by Google.";
    "STARTMODE=hotplug";
    "BOOTPROTO=dhcp";
    "DHCLIENT_SET_DEFAULT_ROUTE=yes";
    "DHCLIENT_ROUTE_PRIORITY=10" +:+ interface +:+ "00";
    "" ].

Fixpoint _WriteIfcfg (interfaces : list string) : Py Host unit :=
  match interfaces with
  | [] => ret tt
  | interface :: rest =>
      let interface_config :=
        os_path_join network_path ("ifcfg-" +:+ interface) in
      host_write interface_config
        (str_join newline (interface_content interface)) >>>
      host_info "Created ifcfg file for interface %s." (Name interface) >>>
      _WriteIfcfg rest
  end.

Definition _Ifup (interfaces : list string) : Py Host unit :=
  let ifup := ["/usr/sbin/wicked"; "ifup"; "--timeout"; "1"] in
  try_except
    (check_call status (ifup ++ interfaces))
    [ (is_CalledProcessError,
       fun _ =>
         host_warning "Could not activate interfaces %s." (Names interfaces)) ].

Definition EnableNetworkInterfaces (interfaces : list string)
    : Py Host unit :=
  let interfaces_to_up := interfaces_to_up interfaces in
  match interfaces_to_up with
  | _ :: _ =>
      host_info "Enabling the Ethernet interfaces %s."
        (Names interfaces_to_up) >>>
      _WriteIfcfg interfaces_to_up >>>
      _Ifup interfaces_to_up
  | [] => ret tt
  end.
End Utils.
End Sles12.

Module Sles11.
Section Utils.
Variable status : list host_event -> list string -> option exn.

Fixpoint _Dhcpcd (interfaces : list string) : Py Host unit :=
  match interfaces with
  | [] => ret tt
  | interface :: rest =>
      let dhcpcd := ["/sbin/dhcpcd"] in
      try_except
        (check_call status (dhcpcd ++ ["-x"; interface]))
        [ (is_CalledProcessError,
           fun _ =>
             host_info "Dhcpcd not yet running for interface %s."
               (Name interface)) ] >>>
      try_except
        (check_call status (dhcpcd ++ [interface]))
        [ (is_CalledProcessError,
           fun _ =>
             host_warning "Could not activate interface %s."
               (Name interface)) ] >>>
      _Dhcpcd rest
  end.

Definition EnableNetworkInterfaces (interfaces : list string)
    : Py Host unit :=
  let interfaces_to_up := interfaces_to_up interfaces in
  match interfaces_to_up with
  | _ :: _ =>
      host_info "Enabling the Ethernet interfaces %s."
        (Names interfaces_to_up) >>>
      _Dhcpcd interfaces_to_up
  | [] => ret tt
  end.
End Utils.
End Sles11.

(** The file that [Sles12._WriteIfcfg] writes for a device, and its
    content. *)
Definition ifcfg_file (LOCALBASE interface : string) : string :=
  LOCALBASE +:+ "/etc/sysconfig/network/ifcfg-" +:+ interface.

Definition ifcfg_text (interface : string) : string :=
  "# Added by Google." +:+ newline
  +:+ "STARTMODE=hotplug" +:+ newline
  +:+ "BOOTPROTO=dhcp" +:+ newline
  +:+ "DHCLIENT_SET_DEFAULT_ROUTE=yes" +:+ newline
  +:+ "DHCLIENT_ROUTE_PRIORITY=10" +:+ interface +:+ "00" +:+ newline.

(** The files after the devices [ups] were configured: each has its file,
    every other file is as it was. *)
Definition ifcfg_written (LOCALBASE : string) (ups : list string)
    (h h' : Host) : Prop :=
  (forall i, i ∈ ups ->
     host_files h' !! ifcfg_file LOCALBASE i = Some (ifcfg_text i))
  /\ (forall name,
        (forall i, i ∈ ups -> name <> ifcfg_file LOCALBASE i) ->
        host_files h' !! name = host_files h !! name).



(** Every command succeeds. *)
Definition all_succeed : list host_event -> list string -> option exn :=
  fun _ _ => None.

(** Every command ends with a non-zero exit status. *)
Definition all_fail : list host_event -> list string -> option exn :=
  fun _ _ =>
    Some (Exn (OtherException "CalledProcessError")
            "returned non-zero exit status 1").

(** No command can be run. *)
Definition all_missing : list host_event -> list string -> option exn :=
  fun _ _ => Some (Exn (OtherException "OSError") "No such file or directory").

Definition bare_host : Host := MkHost ∅ [].

(** * Properties *)

(** ** Strings *)

Lemma sapp_nil_l (s : string) : "" +:+ s = s.
Proof. reflexivity. Qed.

Lemma sapp_cons (c : ascii) (s t : string) :
  String c s +:+ t = String c (s +:+ t).
Proof. reflexivity. Qed.

Lemma sapp_nil_r (s : string) : s +:+ "" = s.
Proof.
  induction s as [|c s IH]; [reflexivity | by rewrite sapp_cons, IH].
Qed.

Lemma sapp_assoc (s1 s2 s3 : string) :
  (s1 +:+ s2) +:+ s3 = s1 +:+ (s2 +:+ s3).
Proof.
  induction s1 as [|c s1 IH]; [reflexivity | by rewrite !sapp_cons, IH].
Qed.

Lemma sapp_eq_nil (s1 s2 : string) : s1 +:+ s2 = "" -> s1 = "" /\ s2 = "".
Proof.
  destruct s1; [rewrite sapp_nil_l; intros ->; done
               | rewrite sapp_cons; discriminate].
Qed.

Lemma sapp_eq_cons (s1 s2 : string) (a : ascii) (s : string) :
  s1 +:+ s2 = String a s ->
  (s1 = "" /\ s2 = String a s)
  \/ (exists s1', s1 = String a s1' /\ s = s1' +:+ s2).
Proof.
  destruct s1 as [|c s1]; [rewrite sapp_nil_l | rewrite sapp_cons]; intros H.
  - by left.
  - right. injection H as -> <-. by exists s1.
Qed.

(** ** The derivative matcher decides the language *)

Lemma Matches_nil_nullable (r : regex) (s : string) :
  Matches r s -> s = "" -> nullable r = true.
Proof.
  induction 1 as [| | | r1 r2 s1 s2 _ IH1 _ IH2 | r1 r2 s _ IH | r1 r2 s _ IH
                  | | r s1 s2 _ _ _ _]; intros Hs; simpl; try done.
  - apply sapp_eq_nil in Hs as [-> ->]. by rewrite IH1, IH2.
  - by rewrite IH.
  - rewrite IH by done. apply orb_true_r.
Qed.

Lemma nullable_Matches (r : regex) : nullable r = true -> Matches r "".
Proof.
  induction r as [| | | | r1 IH1 r2 IH2 | r1 IH1 r2 IH2 | r IH]; simpl;
    intros H; try discriminate.
  - constructor.
  - apply andb_true_iff in H as [H1 H2].
    change "" with ("" +:+ ""). constructor; auto.
  - apply orb_true_iff in H as [H|H]; [apply MAltL | apply MAltR]; auto.
  - constructor.
Qed.

Lemma deriv_sound (r : regex) :
  forall a s, Matches (deriv a r) s -> Matches r (String a s).
Proof.
  induction r as [| | c | charset | r1 IH1 r2 IH2 | r1 IH1 r2 IH2 | r IH];
    simpl; intros a s H.
  - inversion H.
  - inversion H.
  - destruct (Ascii.eqb_spec a c) as [->|]; inversion H; subst. constructor.
  - destruct (charset a) eqn:E; inversion H; subst. by constructor.
  - assert (Hcat : forall t, Matches (Cat (deriv a r1) r2) t ->
                             Matches (Cat r1 r2) (String a t)).
    { intros t Ht. inversion Ht as [| | |? ? s1 s2 H1 H2| | | |]; subst.
      change (String a (s1 +:+ s2)) with (String a s1 +:+ s2).
      constructor; auto. }
    destruct (nullable r1) eqn:E; [| by apply Hcat].
    inversion H; subst; [by apply Hcat |].
    change (String a s) with ("" +:+ String a s).
    constructor; [by apply nullable_Matches | auto].
  - inversion H; subst; [apply MAltL | apply MAltR]; auto.
  - inversion H as [| | |? ? s1 s2 H1 H2| | | |]; subst.
    change (String a (s1 +:+ s2)) with (String a s1 +:+ s2).
    constructor; auto.
Qed.

Lemma deriv_complete (r : regex) (s' : string) :
  Matches r s' -> forall a s, s' = String a s -> Matches (deriv a r) s.
Proof.
  induction 1 as [| c | charset c Hc | r1 r2 s1 s2 H1 IH1 H2 IH2
                  | r1 r2 s0 _ IH | r1 r2 s0 _ IH
                  | | r s1 s2 H1 IH1 H2 IH2]; intros a s Hs; simpl.
  - discriminate.
  - injection Hs as -> <-. rewrite Ascii.eqb_refl. constructor.
  - injection Hs as -> <-. rewrite Hc. constructor.
  - apply sapp_eq_cons in Hs as [[-> ->] | (s1' & -> & ->)].
    + rewrite (Matches_nil_nullable r1 "") by done.
      apply MAltR. by apply IH2.
    + assert (Matches (Cat (deriv a r1) r2) (s1' +:+ s2))
        by (constructor; [by apply IH1 | done]).
      destruct (nullable r1); [by apply MAltL | done].
  - apply MAltL. by apply IH.
  - apply MAltR. by apply IH.
  - discriminate.
  - apply sapp_eq_cons in Hs as [[-> ->] | (s1' & -> & ->)].
    + by apply IH2.
    + constructor; [by apply IH1 | done].
Qed.

Lemma re_match_Matches (s : string) :
  forall r, re_match r s = true <-> Matches r s.
Proof.
  induction s as [|a s IH]; intros r; simpl.
  - split; [apply nullable_Matches | intros H; by eapply Matches_nil_nullable].
  - rewrite IH. split; [apply deriv_sound | intros H; by eapply deriv_complete].
Qed.

(** ** The two patterns say what the documentation says *)

Lemma Matches_Cat (r1 r2 : regex) (s : string) :
  Matches (Cat r1 r2) s <->
  exists s1 s2, s = s1 +:+ s2 /\ Matches r1 s1 /\ Matches r2 s2.
Proof.
  split.
  - intros H. inversion H; subst. eauto.
  - intros (s1 & s2 & -> & H1 & H2). by constructor.
Qed.

Lemma Matches_Lit (c : ascii) (s : string) :
  Matches (Lit c) s <-> s = String c "".
Proof. split; [intros H; by inversion H | intros ->; constructor]. Qed.

Lemma Matches_Class (charset : ascii -> bool) (s : string) :
  Matches (Class charset) s <-> exists c, s = String c "" /\ charset c = true.
Proof.
  split.
  - intros H. inversion H; subst. eauto.
  - intros (c & -> & Hc). by constructor.
Qed.

Lemma Matches_Opt (r : regex) (s : string) :
  Matches (Opt r) s <-> Matches r s \/ s = "".
Proof.
  unfold Opt. split.
  - intros H. inversion H as [| | | | | ? ? ? H' | |]; subst; [by left |].
    inversion H'. by right.
  - intros [H | ->]; [by apply MAltL | apply MAltR; constructor].
Qed.

Lemma Matches_lit (p s : string) : Matches (lit p) s <-> s = p.
Proof.
  revert s. induction p as [|c p IH]; intros s; simpl.
  - split; [intros H; by inversion H | intros ->; constructor].
  - rewrite Matches_Cat. split.
    + intros (s1 & s2 & -> & H1 & H2).
      apply Matches_Lit in H1 as ->. apply IH in H2 as ->. reflexivity.
    + intros ->. exists (String c ""), p.
      split; [reflexivity | split; [constructor | by apply IH]].
Qed.

Lemma Matches_Star_Class (charset : ascii -> bool) (s : string) :
  Matches (Star (Class charset)) s <-> string_forallb charset s = true.
Proof.
  split.
  - intros H. remember (Star (Class charset)) as r eqn:Er.
    induction H as [| | | | | | | r s1 s2 H1 _ H2 IH2]; try discriminate.
    + reflexivity.
    + injection Er as ->. apply Matches_Class in H1 as (c & -> & Hc).
      rewrite sapp_cons, sapp_nil_l. simpl. rewrite Hc. by apply IH2.
  - induction s as [|c s IH]; simpl; intros H; [constructor |].
    apply andb_true_iff in H as [Hc Hs].
    change (String c s) with (String c "" +:+ s).
    constructor; [by constructor | by apply IH].
Qed.

Lemma Matches_header (s : string) :
  Matches header s <-> exists scheme, is_scheme scheme /\ s = scheme +:+ "://".
Proof.
  unfold header. rewrite Matches_Cat. split.
  - intros (s1 & s2 & -> & H1 & H2).
    apply Matches_lit in H1 as ->.
    apply Matches_Cat in H2 as (t1 & t2 & -> & Ht1 & Ht2).
    apply Matches_lit in Ht2 as ->.
    apply Matches_Opt in Ht1 as [Ht1 | ->].
    + apply Matches_Class in Ht1 as (c & -> & Hc).
      simpl in Hc. rewrite orb_false_r in Hc.
      apply Ascii.eqb_eq in Hc as ->.
      exists "https". split; [by right | reflexivity].
    + exists "http". split; [by left | reflexivity].
  - intros (scheme & [-> | ->] & ->).
    + exists "http", "://". repeat split; [by apply Matches_lit |].
      apply Matches_Cat. exists "", "://".
      repeat split; [apply Matches_Opt; by right | by apply Matches_lit].
    + exists "http", "s://". repeat split; [by apply Matches_lit |].
      apply Matches_Cat. exists "s", "://".
      repeat split; [| by apply Matches_lit].
      apply Matches_Opt. left. by constructor.
Qed.

Lemma Matches_bucket (b : string) : Matches bucket b <-> is_bucket b.
Proof.
  unfold bucket, is_bucket. rewrite Matches_Cat. split.
  - intros (s1 & s2 & -> & H1 & H2).
    apply Matches_Class in H1 as (c1 & -> & Hc1).
    apply Matches_Cat in H2 as (mid & s3 & -> & Hmid & H3).
    apply Matches_Class in H3 as (c2 & -> & Hc2).
    apply Matches_Star_Class in Hmid.
    exists c1, mid, c2. done.
  - intros (c1 & mid & c2 & -> & Hc1 & Hmid & Hc2).
    exists (String c1 ""), (mid +:+ String c2 "").
    repeat split; [by constructor |].
    apply Matches_Cat. exists mid, (String c2 "").
    repeat split; [by apply Matches_Star_Class | by constructor].
Qed.

Lemma Matches_obj (o : string) : Matches obj o <-> is_object o.
Proof.
  unfold obj, Plus, is_object. rewrite Matches_Cat. split.
  - intros (s1 & s2 & -> & H1 & H2).
    apply Matches_Class in H1 as (c & -> & Hc).
    apply Matches_Star_Class in H2.
    rewrite sapp_cons, sapp_nil_l. simpl. by rewrite Hc, H2.
  - intros [Hne Hall]. destruct o as [|c o]; [done |].
    simpl in Hall. apply andb_true_iff in Hall as [Hc Ho].
    exists (String c ""), o.
    repeat split; [by constructor | by apply Matches_Star_Class].
Qed.

Lemma gs_regex_host_spec (url : string) :
  re_match gs_regex_host url = true <-> host_style url.
Proof.
  rewrite re_match_Matches. unfold gs_regex_host, host_style, domain. split.
  - intros H.
    apply Matches_Cat in H as (h & s1 & -> & Hh & H).
    apply Matches_Cat in H as (b & s2 & -> & Hb & H).
    apply Matches_Cat in H as (dot & s3 & -> & Hdot & H).
    apply Matches_Cat in H as (dom & s4 & -> & Hdom & H).
    apply Matches_Cat in H as (sl & o & -> & Hsl & Ho).
    apply Matches_header in Hh as (scheme & Hs & ->).
    apply Matches_lit in Hdot as ->, Hdom as ->, Hsl as ->.
    exists scheme, b, o.
    split_and!; [done | by apply Matches_bucket | by apply Matches_obj |].
    by rewrite sapp_assoc.
  - intros (scheme & b & o & Hs & Hb & Ho & ->).
    apply Matches_Cat. exists (scheme +:+ "://"), (b +:+ ".storage.googleapis.com/" +:+ o).
    split; [by rewrite sapp_assoc |].
    split; [apply Matches_header; eauto |].
    apply Matches_Cat. exists b, (".storage.googleapis.com/" +:+ o).
    split_and!; [done | by apply Matches_bucket |].
    apply Matches_Cat. exists ".", ("storage.googleapis.com/" +:+ o).
    split_and!; [done | by apply Matches_lit |].
    apply Matches_Cat. exists "storage.googleapis.com", ("/" +:+ o).
    split_and!; [done | by apply Matches_lit |].
    apply Matches_Cat. exists "/", o.
    split_and!; [done | by apply Matches_lit | by apply Matches_obj].
Qed.

Lemma gs_regex_path_spec (url : string) :
  re_match gs_regex_path url = true <-> path_style url.
Proof.
  rewrite re_match_Matches. unfold gs_regex_path, path_style, domain. split.
  - intros H.
    apply Matches_Cat in H as (h & s1 & -> & Hh & H).
    apply Matches_Cat in H as (al & s2 & -> & Hal & H).
    apply Matches_Cat in H as (dom & s3 & -> & Hdom & H).
    apply Matches_Cat in H as (sl & s4 & -> & Hsl & H).
    apply Matches_Cat in H as (b & s5 & -> & Hb & H).
    apply Matches_Cat in H as (sl' & o & -> & Hsl' & Ho).
    apply Matches_header in Hh as (scheme & Hs & ->).
    apply Matches_lit in Hdom as ->, Hsl as ->, Hsl' as ->.
    exists scheme, al, b, o.
    split_and!; [done | | by apply Matches_bucket | by apply Matches_obj |].
    + apply Matches_Opt in Hal as [Hal | ->]; [| by left].
      apply Matches_lit in Hal as ->. by right.
    + by rewrite sapp_assoc.
  - intros (scheme & al & b & o & Hs & Hal & Hb & Ho & ->).
    apply Matches_Cat.
    exists (scheme +:+ "://"), (al +:+ "storage.googleapis.com/" +:+ b +:+ "/" +:+ o).
    split; [by rewrite sapp_assoc |].
    split; [apply Matches_header; eauto |].
    apply Matches_Cat. exists al, ("storage.googleapis.com/" +:+ b +:+ "/" +:+ o).
    split_and!; [done | |].
    { apply Matches_Opt. destruct Hal as [-> | ->];
        [by right | left; by apply Matches_lit]. }
    apply Matches_Cat. exists "storage.googleapis.com", ("/" +:+ b +:+ "/" +:+ o).
    split_and!; [done | by apply Matches_lit |].
    apply Matches_Cat. exists "/", (b +:+ "/" +:+ o).
    split_and!; [done | by apply Matches_lit |].
    apply Matches_Cat. exists b, ("/" +:+ o).
    split_and!; [done | by apply Matches_bucket |].
    apply Matches_Cat. exists "/", o.
    split_and!; [done | by apply Matches_lit | by apply Matches_obj].
Qed.

(** ** The retry decorator *)

Section RetryProperties.
Context {S A : Type}.
Variable time_sleep : Z -> S -> S.
Variable func : Py S A.

(** Whatever the operation and the sleep maintain, the loop maintains. *)
Lemma Wrapper_loop_inv (I : S -> Prop) :
  (forall s r s', I s -> func s = (r, s') -> I s') ->
  (forall secs s, I s -> I (time_sleep secs s)) ->
  forall rng fe s r s',
    I s -> Wrapper_loop time_sleep func rng fe s = (r, s') -> I s'.
Proof.
  intros Hfunc Hsleep rng.
  induction rng as [|n rng IH]; intros fe s r s' Hs; simpl.
  - destruct fe; unfold raise_final, raise; intros [= <- <-]; done.
  - destruct (func s) as [[v|e] s1] eqn:E.
    + intros [= <- <-]. eauto.
    + destruct (is_unavailable e).
      * apply IH. eauto.
      * intros [= <- <-]. eauto.
Qed.

Lemma Wrapper_inv (I : S -> Prop) :
  (forall s r s', I s -> func s = (r, s') -> I s') ->
  (forall secs s, I s -> I (time_sleep secs s)) ->
  forall s r s', I s -> Wrapper time_sleep func s = (r, s') -> I s'.
Proof. intros Hf Hs s r s'. apply Wrapper_loop_inv; done. Qed.

(** The three rounds of the loop, written out. *)
Lemma Wrapper_unfold (s : S) :
  Wrapper time_sleep func s =
  match func s with
  | (Returns v, s1) => (Returns v, s1)
  | (Raises e1, s1) =>
      if is_unavailable e1 then
        match func (time_sleep 5 s1) with
        | (Returns v, s2) => (Returns v, s2)
        | (Raises e2, s2) =>
            if is_unavailable e2 then
              match func (time_sleep 5 s2) with
              | (Returns v, s3) => (Returns v, s3)
              | (Raises e3, s3) =>
                  if is_unavailable e3
                  then (Raises e3, time_sleep 5 s3)
                  else (Raises e3, s3)
              end
            else (Raises e2, s2)
        end
      else (Raises e1, s1)
  end.
Proof.
  unfold Wrapper. simpl.
  destruct (func s) as [[v|e1] s1]; [done |].
  destruct (is_unavailable e1); [| done].
  destruct (func (time_sleep 5%Z s1)) as [[v|e2] s2]; [done |].
  destruct (is_unavailable e2); [| done].
  destruct (func (time_sleep 5%Z s2)) as [[v|e3] s3]; [done |].
  destruct (is_unavailable e3); done.
Qed.
End RetryProperties.

(** C3. The retry decorator runs the wrapped operation at most three
    times, sleeps 5 seconds after each attempt that raised one of the
    three network exceptions, and stops at the first attempt that returns
    a value (which it returns) or raises anything else (which it lets
    through); when all three attempts raise a network exception, it raises
    the third one.  The recorded run is one of four shapes, and recording
    does not change the result. *)
Theorem RetryOnUnavailable_attempts {S A : Type} (time_sleep : Z -> S -> S)
    (func : Py S A) (s : S) :
  exists r tr s',
    Wrapper (recording_sleep time_sleep) (recording_func func) ([], s)
      = (r, (tr, s'))
    /\ Wrapper time_sleep func s = (r, s')
    /\ ((exists r1, tr = [Attempt r1] /\ ends_loop r1 /\ r = r1)
        \/ (exists e1 r2,
              tr = [Attempt (Raises e1); Slept 5; Attempt r2]
              /\ is_unavailable e1 = true /\ ends_loop r2 /\ r = r2)
        \/ (exists e1 e2 r3,
              tr = [Attempt (Raises e1); Slept 5;
                    Attempt (Raises e2); Slept 5; Attempt r3]
              /\ is_unavailable e1 = true /\ is_unavailable e2 = true
              /\ ends_loop r3 /\ r = r3)
        \/ (exists e1 e2 e3,
              tr = [Attempt (Raises e1); Slept 5;
                    Attempt (Raises e2); Slept 5;
                    Attempt (Raises e3); Slept 5]
              /\ is_unavailable e1 = true /\ is_unavailable e2 = true
              /\ is_unavailable e3 = true /\ r = Raises e3)).
Proof.
  rewrite !Wrapper_unfold. unfold recording_func at 1. simpl.
  destruct (func s) as [[v|e1] s1]; simpl.
  { do 3 eexists. split_and!; [done | done |]. left. by eexists. }
  destruct (is_unavailable e1) eqn:E1; simpl;
    [| do 3 eexists; split_and!; [done | done |]; left; by eexists].
  destruct (func (time_sleep 5%Z s1)) as [[v|e2] s2]; simpl.
  { do 3 eexists. split_and!; [done | done |]. right; left. by do 2 eexists. }
  destruct (is_unavailable e2) eqn:E2; simpl;
    [| do 3 eexists; split_and!; [done | done |]; right; left; by do 2 eexists].
  destruct (func (time_sleep 5%Z s2)) as [[v|e3] s3]; simpl.
  { do 3 eexists. split_and!; [done | done |].
    right; right; left. by do 3 eexists. }
  destruct (is_unavailable e3) eqn:E3; simpl;
    do 3 eexists; (split_and!; [done | done |]).
  - right; right; right. by do 3 eexists.
  - right; right; left. by do 3 eexists.
Qed.

(** Two failures and a success: three requests, two sleeps, the value. *)
Example UrlOpenWithRetry_third_time :
  let request := auth_request "https://storage.googleapis.com/bk/o" "t" in
  exists w',
    _UrlOpenWithRetry flaky request fresh_world
    = (Returns (Returns "echo hi"), w')
    /\ events w'
       = [UrlOpen request; Sleep 5; UrlOpen request; Sleep 5; UrlOpen request].
Proof. eexists. split; reflexivity. Qed.

(** Three failures: three requests, and the exception is raised. *)
Example UrlOpenWithRetry_gives_up :
  let request := auth_request "https://storage.googleapis.com/bk/o" "t" in
  exists w',
    _UrlOpenWithRetry offline request fresh_world
    = (Raises (Exn URLError "unreachable"), w')
    /\ events w'
       = [UrlOpen request; Sleep 5; UrlOpen request; Sleep 5;
          UrlOpen request; Sleep 5].
Proof. eexists. split; reflexivity. Qed.

(** ** Events and files *)

Lemma grows_refl (P : event -> Prop) (w : World) : grows P w w.
Proof. exists []. by rewrite app_nil_r. Qed.

Lemma grows_trans (P : event -> Prop) (w1 w2 w3 : World) :
  grows P w1 w2 -> grows P w2 w3 -> grows P w1 w3.
Proof.
  intros (a1 & E1 & H1) (a2 & E2 & H2). exists (a1 ++ a2).
  split; [by rewrite E2, E1, app_assoc | by apply Forall_app].
Qed.

Lemma grows_emit (P : event -> Prop) (ev : event) (w : World) :
  P ev -> grows P w (emit ev w).
Proof. intros H. exists [ev]. split; [done | by repeat constructor]. Qed.

Lemma grows_same (P : event -> Prop) (w w' : World) :
  events w' = events w -> grows P w w'.
Proof. intros E. exists []. by rewrite app_nil_r. Qed.

Lemma grows_mono (P Q : event -> Prop) (w w' : World) :
  (forall ev, P ev -> Q ev) -> grows P w w' -> grows Q w w'.
Proof.
  intros HPQ (a & E & H). exists a. split; [done |].
  eapply Forall_impl; eauto.
Qed.

Lemma warned_emit (msg : string) (w : World) : warned (emit (Log WARNING msg) w).
Proof. exists msg. unfold emit. simpl. apply last_snoc. Qed.

(** A temporary file gets a path that is not in use. *)
Lemma fresh_path (dir : string) (fs : gmap path string) :
  fs !! (dir, fresh (listdir dir fs)) = None.
Proof.
  destruct (fs !! (dir, fresh (listdir dir fs))) as [data|] eqn:E; [| done].
  exfalso. apply (is_fresh (listdir dir fs)).
  unfold listdir. apply elem_of_map.
  exists (dir, fresh (listdir dir fs)). split; [done |].
  apply elem_of_filter. split; [done |].
  apply elem_of_dom. by exists data.
Qed.

Lemma NamedTemporaryFile_run (dir : string) (w : World) :
  NamedTemporaryFile dir w =
  (Returns (dir, fresh (listdir dir (files w))),
   write_file (dir, fresh (listdir dir (files w))) "" w).
Proof. reflexivity. Qed.

Lemma steps_refl (P : event -> Prop) (dest : path) (w : World) :
  steps P dest w w.
Proof. split_and!; [done | done | done | apply grows_refl]. Qed.

Lemma steps_trans (P : event -> Prop) (dest : path) (w1 w2 w3 : World) :
  steps P dest w1 w2 -> steps P dest w2 w3 -> steps P dest w1 w3.
Proof.
  intros (T1 & F1 & D1 & G1) (T2 & F2 & D2 & G2). split_and!.
  - congruence.
  - intros q Hq. rewrite F2, F1; done.
  - auto.
  - by eapply grows_trans.
Qed.

Lemma steps_emit (P : event -> Prop) (dest : path) (ev : event) (w : World) :
  P ev -> steps P dest w (emit ev w).
Proof. intros H. split_and!; [done | done | done | by apply grows_emit]. Qed.

Lemma steps_write (P : event -> Prop) (dest : path) (data : string)
    (w : World) :
  steps P dest w (write_file dest data w).
Proof.
  split_and!; [done | | | by apply grows_same].
  - intros q Hq. simpl. by rewrite lookup_insert_ne.
  - intros _. simpl. rewrite lookup_insert_eq. by eexists.
Qed.

Lemma steps_mono (P Q : event -> Prop) (dest : path) (w w' : World) :
  (forall ev, P ev -> Q ev) -> steps P dest w w' -> steps Q dest w w'.
Proof.
  intros HPQ (T & F & D & G). split_and!; [done | done | done |].
  by eapply grows_mono.
Qed.

(** ** Plain download *)

Section PlainDownload.
Variable env : Env.

Lemma urlretrieve_steps (url : string) (dest : path) (w : World)
    (r : result unit) (w' : World) :
  urlretrieve env (url, dest) w = (r, w') ->
  steps (plain_event dest) dest w w'.
Proof.
  unfold urlretrieve.
  destruct (url_retrieve env (events w) url) as [data | e [data|]];
    intros [= <- <-].
  - eapply steps_trans; [| apply steps_write]. by apply steps_emit.
  - eapply steps_trans; [| apply steps_write]. by apply steps_emit.
  - by apply steps_emit.
Qed.

Lemma UrlRetrieveWithRetry_steps (url : string) (dest : path) (w : World)
    (r : result unit) (w' : World) :
  _UrlRetrieveWithRetry env (url, dest) w = (r, w') ->
  steps (plain_event dest) dest w w'.
Proof.
  unfold _UrlRetrieveWithRetry, _RetryOnUnavailable.
  apply (Wrapper_inv time_sleep (urlretrieve env (url, dest))
           (steps (plain_event dest) dest w)).
  - intros s r0 s' Hs Hrun. eapply steps_trans; [exact Hs |].
    by eapply urlretrieve_steps.
  - intros secs s Hs. eapply steps_trans; [exact Hs |].
    by apply steps_emit.
  - apply steps_refl.
Qed.

(** What [_DownloadUrl] returns, by the outcome of the retried fetch. *)
Lemma DownloadUrl_cases (url dest_dir : string) (w : World) :
  let dest := (dest_dir, fresh (listdir dest_dir (files w))) in
  let w1 :=
    emit (Log INFO ("Downloading url from " +:+ url +:+ " to "
                    +:+ path_str dest +:+ "."))
      (write_file dest "" w) in
  match _UrlRetrieveWithRetry env (url, dest) w1 with
  | (Returns _, w2) =>
      _DownloadUrl env url dest_dir w = (Returns (Some dest), w2)
  | (Raises e, w2) =>
      _DownloadUrl env url dest_dir w =
      (Returns None,
       emit (Log WARNING
               ((if is_unavailable e then "Could not download "
                 else "Exception downloading ")
                +:+ url +:+ ". " +:+ exn_str e +:+ ".")) w2)
  end.
Proof.
  intros dest w1. unfold _DownloadUrl, bind, try_except.
  rewrite NamedTemporaryFile_run. unfold logger_info. subst w1 dest.
  destruct (_UrlRetrieveWithRetry env _ _) as [[[]|e] w2]; [done |].
  simpl. destruct (is_unavailable e); done.
Qed.

Lemma DownloadUrl_run (url dest_dir : string) (w : World) :
  let dest := (dest_dir, fresh (listdir dest_dir (files w))) in
  exists r w',
    _DownloadUrl env url dest_dir w = (Returns r, w')
    /\ (r = Some dest \/ (r = None /\ warned w'))
    /\ is_Some (files w' !! dest)
    /\ steps (plain_event dest) dest w w'.
Proof.
  intros dest. pose proof (DownloadUrl_cases url dest_dir w) as Hc.
  simpl in Hc. fold dest in Hc.
  set (w1 := emit _ (write_file dest "" w)) in Hc.
  assert (H1 : steps (plain_event dest) dest w w1).
  { eapply steps_trans; [apply steps_write | by apply steps_emit]. }
  assert (D1 : is_Some (files w1 !! dest)).
  { simpl. rewrite lookup_insert_eq. by eexists. }
  destruct (_UrlRetrieveWithRetry env (url, dest) w1) as [[[]|e] w2] eqn:E;
    apply UrlRetrieveWithRetry_steps in E.
  - exists (Some dest), w2. split_and!; [done | by left | | ].
    + by apply E.
    + by eapply steps_trans.
  - eexists None, _. split_and!; [done | right | | ].
    + split; [done | apply warned_emit].
    + simpl. by apply E.
    + eapply steps_trans; [exact H1 |].
      eapply steps_trans; [exact E | by apply steps_emit].
Qed.
End PlainDownload.

(** ** Authenticated download *)

Section AuthDownload.
Variable env : Env.

Lemma auth_request_authorized (url tok : string) :
  ("Authorization", tok) ∈ unredirected_hdrs (auth_request url tok).
Proof. unfold auth_request. simpl. set_solver. Qed.

(** The retried request adds its events and touches nothing else. *)
Lemma UrlOpenWithRetry_keeps (request : Request) (tok : string) (w : World)
    (r : result (result string)) (w' : World) :
  ("Authorization", tok) ∈ unredirected_hdrs request ->
  _UrlOpenWithRetry env request w = (r, w') ->
  files w' = files w /\ token w' = token w /\ grows (auth_event tok) w w'.
Proof.
  intros Hhdr. unfold _UrlOpenWithRetry, _RetryOnUnavailable.
  apply (Wrapper_inv time_sleep (urlopen env request)
           (fun s => files s = files w /\ token s = token w
                     /\ grows (auth_event tok) w s)).
  - intros s r0 s' (F & T & G). unfold urlopen. intros [= <- <-].
    split_and!; [done | done |].
    eapply grows_trans; [exact G | by apply grows_emit].
  - intros secs s (F & T & G). split_and!; [done | done |].
    eapply grows_trans; [exact G | by apply grows_emit].
  - split_and!; [done | done | apply grows_refl].
Qed.

Lemma fetch_content_keeps (url tok : string) (w : World)
    (r : result string) (w' : World) :
  fetch_content env (auth_request url tok) w = (r, w') ->
  files w' = files w /\ token w' = token w /\ grows (auth_event tok) w w'.
Proof.
  unfold fetch_content, bind, read_decode.
  destruct (_UrlOpenWithRetry env _ w) as [[response|e] w2] eqn:E;
    intros [= <- <-];
    by eapply UrlOpenWithRetry_keeps; [apply auth_request_authorized |].
Qed.

(** What the fetch with a token returns, by the outcome of the retried
    request and of reading the response. *)
Lemma auth_fetch_cases (url : string) (dest : path) (tok : string)
    (w : World) :
  match fetch_content env (auth_request url tok) w with
  | (Returns content, w2) =>
      auth_fetch env url dest tok w =
      (Returns (Some dest), write_file dest content w2)
  | (Raises e, w2) =>
      auth_fetch env url dest tok w =
      (Returns None,
       emit (Log WARNING ("Could not download " +:+ url +:+ ". "
                          +:+ exn_str e +:+ ".")) w2)
  end.
Proof.
  unfold auth_fetch, bind, try_except.
  destruct (fetch_content env _ w) as [[content|e] w2]; done.
Qed.

Lemma auth_fetch_run (url : string) (dest : path) (tok : string)
    (w : World) :
  exists r w',
    auth_fetch env url dest tok w = (Returns r, w')
    /\ ((r = Some dest /\ is_Some (files w' !! dest))
        \/ (r = None /\ warned w'))
    /\ steps (auth_event tok) dest w w'.
Proof.
  pose proof (auth_fetch_cases url dest tok w) as Hc.
  destruct (fetch_content env _ w) as [[content|e] w2] eqn:E;
    apply fetch_content_keeps in E as (F & T & G);
    eexists _, _; (split; [exact Hc |]).
  - split.
    + left. split; [done |]. simpl. rewrite lookup_insert_eq. by eexists.
    + eapply steps_trans; [| apply steps_write].
      split_and!; [done | by rewrite F | by rewrite F | done].
  - split.
    + right. split; [done | apply warned_emit].
    + eapply steps_trans; [| by apply steps_emit].
      split_and!; [done | by rewrite F | by rewrite F | done].
Qed.

(** The three ways through [_DownloadAuthUrl]. *)
Lemma DownloadAuthUrl_cached (url dest_dir : string) (w : World) :
  let dest := (dest_dir, fresh (listdir dest_dir (files w))) in
  let w1 :=
    emit (Log INFO ("Downloading url from " +:+ url +:+ " to "
                    +:+ path_str dest +:+ " using authentication token."))
      (write_file dest "" w) in
  str_truthy (token w) = true ->
  _DownloadAuthUrl env url dest_dir w =
  auth_fetch env url dest (default "" (token w)) w1.
Proof.
  intros dest w1 Ht. unfold _DownloadAuthUrl, bind.
  rewrite NamedTemporaryFile_run. unfold logger_info. simpl.
  by rewrite Ht.
Qed.

Lemma DownloadAuthUrl_uncached (url dest_dir : string) (w : World) :
  let dest := (dest_dir, fresh (listdir dest_dir (files w))) in
  let w1 :=
    emit (Log INFO ("Downloading url from " +:+ url +:+ " to "
                    +:+ path_str dest +:+ " using authentication token."))
      (write_file dest "" w) in
  let response := metadata_server_key env (events w1) token_metadata_key in
  let w2 :=
    emit (GetMetadataCall (Some token_metadata_key) (Some false)
            (Some false)) w1 in
  str_truthy (token w) = false ->
  _DownloadAuthUrl env url dest_dir w =
  if opt_dict_truthy response then
    auth_fetch env url dest (compose_token (default ∅ response))
      (set_token (compose_token (default ∅ response)) w2)
  else
    _DownloadUrl env url dest_dir
      (emit (Log INFO ("Authentication token not found. "
                       +:+ "Attempting unauthenticated download.")) w2).
Proof.
  intros dest w1 response w2 Ht. unfold _DownloadAuthUrl, bind.
  rewrite NamedTemporaryFile_run. unfold logger_info. simpl.
  rewrite Ht. simpl. unfold bind, watcher_GetMetadata_key. simpl.
  subst response w2 w1 dest. simpl.
  destruct (opt_dict_truthy _); done.
Qed.
End AuthDownload.

(** ** No download raises, and none touches a file that was there *)

Section Staging.
Variable env : Env.

Lemma DownloadUrl_staged (url dest_dir : string) (w : World) :
  exists r w',
    _DownloadUrl env url dest_dir w = (Returns r, w')
    /\ staged dest_dir w r w' /\ token w' = token w.
Proof.
  destruct (DownloadUrl_run env url dest_dir w)
    as (r & w' & Hrun & Hr & Hd & (T & F & _ & _)).
  pose proof (fresh_path dest_dir (files w)) as Hfresh.
  exists r, w'. split_and!; [done | | done]. split.
  - intros q [data Hq]. apply F. intros ->. congruence.
  - destruct Hr as [-> | [-> Hw]]; done.
Qed.

Lemma auth_fetch_staged (url dest_dir : string) (tok : string) (w w1 : World) :
  let dest := (dest_dir, fresh (listdir dest_dir (files w))) in
  files w1 = <[dest := ""]> (files w) ->
  exists r w',
    auth_fetch env url dest tok w1 = (Returns r, w')
    /\ staged dest_dir w r w' /\ token w' = token w1
    /\ grows (auth_event tok) w1 w'.
Proof.
  intros dest Hfiles.
  destruct (auth_fetch_run env url dest tok w1)
    as (r & w' & Hrun & Hr & (T & F & D & G)).
  pose proof (fresh_path dest_dir (files w)) as Hfresh.
  exists r, w'. split_and!; [done | | done | done]. split.
  - intros q [data Hq].
    assert (q <> dest) by (intros ->; fold dest in Hfresh; congruence).
    rewrite F by done. rewrite Hfiles. by rewrite lookup_insert_ne.
  - destruct Hr as [[-> Hd] | [-> Hw]]; done.
Qed.

Lemma DownloadAuthUrl_staged (url dest_dir : string) (w : World) :
  exists r w',
    _DownloadAuthUrl env url dest_dir w = (Returns r, w')
    /\ staged dest_dir w r w'.
Proof.
  set (dest := (dest_dir, fresh (listdir dest_dir (files w)))).
  pose proof (fresh_path dest_dir (files w)) as Hfresh. fold dest in Hfresh.
  destruct (str_truthy (token w)) eqn:Ht.
  - rewrite DownloadAuthUrl_cached by done.
    edestruct (auth_fetch_staged url dest_dir) as (r & w' & -> & H & _);
      [| by exists r, w']. done.
  - rewrite DownloadAuthUrl_uncached by done.
    destruct (opt_dict_truthy _).
    + edestruct (auth_fetch_staged url dest_dir) as (r & w' & -> & H & _);
        [| by exists r, w']. done.
    + match goal with |- context [_DownloadUrl env url dest_dir ?w3] =>
        destruct (DownloadUrl_staged url dest_dir w3)
          as (r & w' & -> & [F Hr] & _) end.
      exists r, w'. split; [done |]. simpl in F, Hr. fold dest in F, Hr.
      split.
      * intros q [data Hq].
        assert (q <> dest) by (intros ->; congruence).
        rewrite F; rewrite lookup_insert_ne by done; [done | by eexists].
      * destruct r as [p|]; [| done].
        destruct Hr as (Hdir & Hnew & Hthere). split_and!; [done | | done].
        destruct (decide (p = dest)) as [-> | Hne].
        -- by rewrite lookup_insert_eq in Hnew.
        -- by rewrite lookup_insert_ne in Hnew.
Qed.

Lemma DownloadScript_staged (url dest_dir : string) (w : World) :
  exists r w',
    _DownloadScript env url dest_dir w = (Returns r, w')
    /\ staged dest_dir w r w'.
Proof.
  unfold _DownloadScript.
  repeat match goal with |- context [if ?b then _ else _] => destruct b end;
    first [apply DownloadAuthUrl_staged
          | destruct (DownloadUrl_staged url dest_dir w)
              as (r & w' & ? & ? & _); by exists r, w'].
Qed.
End Staging.

(** ** The URL classifier *)

Lemma startswith_spec (prefix s : string) :
  startswith prefix s = true <-> exists rest, s = prefix +:+ rest.
Proof.
  revert s. induction prefix as [|a p IH]; intros s; simpl.
  - split; [intros _; by exists s | done].
  - destruct s as [|b s].
    + split; [done | intros [rest H]; by rewrite sapp_cons in H].
    + destruct (Ascii.eqb_spec a b) as [-> | Hne].
      * rewrite IH. split; intros [rest H]; exists rest.
        -- by rewrite sapp_cons, H.
        -- rewrite sapp_cons in H. by injection H.
      * split; [done | intros [rest H]].
        rewrite sapp_cons in H. by injection H as ? ?.
  Qed.

Lemma re_sub_gs_prefix (rest : string) :
  re_sub_gs ("gs://" +:+ rest) = "https://storage.googleapis.com/" +:+ rest.
Proof. reflexivity. Qed.

Lemma scheme_not_gs (scheme rest : string) :
  is_scheme scheme -> startswith "gs://" (scheme +:+ "://" +:+ rest) = false.
Proof. by intros [-> | ->]. Qed.

(** C4. A URL that begins with [gs://] is downloaded with authentication
    from the URL that has [https://storage.googleapis.com/] in the place
    of that prefix, whatever follows the prefix. *)
Theorem DownloadScript_gs (env : Env) (url dest_dir : string) :
  startswith "gs://" url = true ->
  exists rest,
    url = "gs://" +:+ rest
    /\ _DownloadScript env url dest_dir =
       _DownloadAuthUrl env ("https://storage.googleapis.com/" +:+ rest)
         dest_dir.
Proof.
  intros Hgs. pose proof Hgs as Hrest.
  apply startswith_spec in Hrest as [rest ->]. exists rest. split; [done |].
  unfold _DownloadScript. by rewrite Hgs, re_sub_gs_prefix.
Qed.

Lemma DownloadScript_gs_witness :
  exists rest,
    "gs://bucket/object" = "gs://" +:+ rest
    /\ _DownloadScript offline "gs://bucket/object" "/scripts" =
       _DownloadAuthUrl offline
         ("https://storage.googleapis.com/" +:+ rest) "/scripts".
Proof. apply (DownloadScript_gs offline "gs://bucket/object" "/scripts"). reflexivity. Defined.

(** C2, as the code has it.  A URL of the form
    [http(s)://<bucket>.storage.googleapis.com/<object>] or
    [http(s)://(commondata)storage.googleapis.com/<bucket>/<object>], with
    a bucket of at least two characters matching
    [[a-z0-9][-_.a-z0-9]*[a-z0-9]] and a non-empty object without [*] and
    [?], is downloaded with authentication; a URL that does not begin with
    [gs://] and has neither form is downloaded plainly.  The forms describe
    the whole URL. *)
Theorem DownloadScript_storage_forms (env : Env) (url dest_dir : string) :
  (host_style url \/ path_style url ->
   _DownloadScript env url dest_dir = _DownloadAuthUrl env url dest_dir)
  /\ (startswith "gs://" url = false ->
      ~ host_style url -> ~ path_style url ->
      _DownloadScript env url dest_dir = _DownloadUrl env url dest_dir).
Proof.
  unfold _DownloadScript. split.
  - intros Hform.
    assert (startswith "gs://" url = false) as ->.
    { destruct Hform as [(scheme & b & o & Hs & _ & _ & ->)
                        | (scheme & al & b & o & Hs & _ & _ & _ & ->)];
        by apply scheme_not_gs. }
    destruct Hform as [H | H].
    + apply gs_regex_host_spec in H. by rewrite H.
    + apply gs_regex_path_spec in H. rewrite H.
      by destruct (re_match gs_regex_host url).
  - intros -> Hhost Hpath.
    destruct (re_match gs_regex_host url) eqn:E1;
      [by apply gs_regex_host_spec in E1 |].
    destruct (re_match gs_regex_path url) eqn:E2;
      [by apply gs_regex_path_spec in E2 | done].
Qed.

Lemma DownloadScript_storage_forms_witness :
  (_DownloadScript offline "http://bk.storage.googleapis.com/o" "/scripts" =
   _DownloadAuthUrl offline "http://bk.storage.googleapis.com/o" "/scripts")
  /\ (_DownloadScript offline "https://storage.googleapis.com/bk/o" "/scripts" =
      _DownloadAuthUrl offline "https://storage.googleapis.com/bk/o" "/scripts")
  /\ (_DownloadScript offline "https://commondatastorage.googleapis.com/bk/o"
        "/scripts" =
      _DownloadAuthUrl offline "https://commondatastorage.googleapis.com/bk/o"
        "/scripts")
  /\ (_DownloadScript offline "https://example.com/script.sh" "/scripts" =
      _DownloadUrl offline "https://example.com/script.sh" "/scripts").
Proof.
  split_and!.
  - apply (DownloadScript_storage_forms offline
             "http://bk.storage.googleapis.com/o" "/scripts").
    left. apply gs_regex_host_spec. reflexivity.
  - apply (DownloadScript_storage_forms offline
             "https://storage.googleapis.com/bk/o" "/scripts").
    right. apply gs_regex_path_spec. reflexivity.
  - apply (DownloadScript_storage_forms offline
             "https://commondatastorage.googleapis.com/bk/o" "/scripts").
    right. apply gs_regex_path_spec. reflexivity.
  - apply (DownloadScript_storage_forms offline
             "https://example.com/script.sh" "/scripts").
    + reflexivity.
    + intros H. apply gs_regex_host_spec in H. vm_compute in H. discriminate H.
    + intros H. apply gs_regex_path_spec in H. vm_compute in H. discriminate H.
Defined.

(** C2, as the claim has it, fails: with the one-letter bucket [b] none of
    the three URLs matches a pattern, and each is downloaded plainly,
    without a token being asked for. *)
Lemma DownloadScript_one_letter_bucket :
  (_DownloadScript offline "http://b.storage.googleapis.com/o" "/scripts" =
   _DownloadUrl offline "http://b.storage.googleapis.com/o" "/scripts"
   /\ _DownloadScript offline "http://b.storage.googleapis.com/o" "/scripts"
        fresh_world <>
      _DownloadAuthUrl offline "http://b.storage.googleapis.com/o" "/scripts"
        fresh_world)
  /\ (_DownloadScript offline "https://storage.googleapis.com/b/o" "/scripts" =
      _DownloadUrl offline "https://storage.googleapis.com/b/o" "/scripts"
      /\ _DownloadScript offline "https://storage.googleapis.com/b/o"
           "/scripts" fresh_world <>
         _DownloadAuthUrl offline "https://storage.googleapis.com/b/o"
           "/scripts" fresh_world)
  /\ (_DownloadScript offline "https://commondatastorage.googleapis.com/b/o"
        "/scripts" =
      _DownloadUrl offline "https://commondatastorage.googleapis.com/b/o"
        "/scripts"
      /\ _DownloadScript offline "https://commondatastorage.googleapis.com/b/o"
           "/scripts" fresh_world <>
         _DownloadAuthUrl offline
           "https://commondatastorage.googleapis.com/b/o" "/scripts"
           fresh_world).
Proof.
  split_and!; try reflexivity;
    intros H; apply (f_equal (fun x => length (events x.2))) in H;
    vm_compute in H; discriminate H.
Qed.

(** ** The token *)

Lemma compose_token_truthy (response : attributes) :
  str_truthy (Some (compose_token response)) = true.
Proof.
  unfold compose_token. by destruct (default "" (response !! "token_type")).
Qed.

Lemma plain_event_not_metadata (dest : path) (ev : event) :
  plain_event dest ev -> is_metadata_call ev = false.
Proof. by destruct ev. Qed.

Lemma auth_event_not_metadata (tok : string) (ev : event) :
  auth_event tok ev -> is_metadata_call ev = false.
Proof. by destruct ev. Qed.

(** C5. With a token cached, [_DownloadAuthUrl] keeps it, asks the
    metadata server nothing, and sends it with every request.  With no
    token cached it asks the metadata server once, for the token of the
    default service account, not recursively and without retry; on an
    absent or empty answer it goes on exactly as [_DownloadUrl] for the
    same URL, and returns; on any other answer the token becomes
    [token_type], a space and [access_token], each the empty string when
    missing, which is never empty and so is cached from then on. *)
Theorem DownloadAuthUrl_token (env : Env) (url dest_dir : string) (w : World) :
  exists r w',
    _DownloadAuthUrl env url dest_dir w = (Returns r, w')
    /\ if str_truthy (token w) then
         token w' = token w
         /\ grows (auth_event (default "" (token w))) w w'
       else
         exists before,
           let query :=
             GetMetadataCall (Some "instance/service-accounts/default/token")
               (Some false) (Some false) in
           let response :=
             metadata_server_key env (events w ++ before)
               "instance/service-accounts/default/token" in
           Forall (fun ev => is_metadata_call ev = false) before
           /\ if opt_dict_truthy response then
                let fields := default ∅ response in
                let tok :=
                  default "" (fields !! "token_type") +:+ " "
                  +:+ default "" (fields !! "access_token") in
                token w' = Some tok
                /\ str_truthy (token w') = true
                /\ exists w2,
                     events w2 = events w ++ before ++ [query]
                     /\ grows (auth_event tok) w2 w'
              else
                token w' = token w
                /\ exists w2 dest,
                     events w2 =
                       events w ++ before
                       ++ [query;
                           Log INFO ("Authentication token not found. "
                                     +:+ "Attempting unauthenticated download.")]
                     /\ token w2 = token w
                     /\ _DownloadUrl env url dest_dir w2 = (Returns r, w')
                     /\ grows (plain_event dest) w2 w'.
Proof.
  destruct (str_truthy (token w)) eqn:Ht.
  - rewrite DownloadAuthUrl_cached by done.
    edestruct auth_fetch_run as (r & w' & -> & _ & (T & _ & _ & G)).
    exists r, w'. split_and!; [done | done |].
    eapply grows_trans; [| exact G].
    eapply grows_trans; [| by apply grows_emit]. by apply grows_same.
  - rewrite DownloadAuthUrl_uncached by done. cbv zeta.
    set (dest := (dest_dir, fresh (listdir dest_dir (files w)))).
    set (msg := "Downloading url from " +:+ url +:+ " to "
                +:+ path_str dest +:+ " using authentication token.").
    change (events (emit (Log INFO msg) (write_file dest "" w)))
      with (events w ++ [Log INFO msg]).
    destruct (opt_dict_truthy
                (metadata_server_key env (events w ++ [Log INFO msg])
                   token_metadata_key)) eqn:Hresp.
    + edestruct auth_fetch_run as (r & w' & -> & _ & (T & _ & _ & G)).
      exists r, w'. split; [done |]. exists [Log INFO msg].
      split; [by repeat constructor |].
      unfold token_metadata_key in Hresp. rewrite Hresp.
      split_and!; [exact T | rewrite T; apply compose_token_truthy |].
      eexists. split; [| exact G]. simpl. by rewrite <- app_assoc.
    + edestruct DownloadUrl_run as (r & w' & Hrun & _ & _ & (T & _ & _ & G)).
      exists r, w'. split; [exact Hrun |]. exists [Log INFO msg].
      split; [by repeat constructor |].
      unfold token_metadata_key in Hresp. rewrite Hresp.
      split; [exact T |].
      eexists _, _. split_and!; [| | exact Hrun | exact G]; [| done].
      simpl. by rewrite <- !app_assoc.
Qed.

(** ** Failures of the fetch *)

(** C6. [_DownloadUrl] and [_DownloadAuthUrl] always return, and what they
    return is the path of a new file in the destination directory or
    [None]; no file that was there is touched.  When the retried fetch
    raises, whatever the exception and also after three failed attempts,
    [_DownloadUrl] logs a warning and returns [None], and so does the
    fetch with a token inside [_DownloadAuthUrl]; when it returns, the
    path of the reserved file is returned. *)
Theorem downloads_never_raise (env : Env) (url dest_dir : string) (w : World) :
  (exists r w',
     _DownloadUrl env url dest_dir w = (Returns r, w')
     /\ staged dest_dir w r w')
  /\ (exists r w',
        _DownloadAuthUrl env url dest_dir w = (Returns r, w')
        /\ staged dest_dir w r w')
  /\ (let dest := (dest_dir, fresh (listdir dest_dir (files w))) in
      let w1 :=
        emit (Log INFO ("Downloading url from " +:+ url +:+ " to "
                        +:+ path_str dest +:+ "."))
          (write_file dest "" w) in
      match _UrlRetrieveWithRetry env (url, dest) w1 with
      | (Returns _, w2) =>
          _DownloadUrl env url dest_dir w = (Returns (Some dest), w2)
      | (Raises e, w2) =>
          _DownloadUrl env url dest_dir w =
          (Returns None,
           emit (Log WARNING
                   ((if is_unavailable e then "Could not download "
                     else "Exception downloading ")
                    +:+ url +:+ ". " +:+ exn_str e +:+ ".")) w2)
      end)
  /\ (forall (dest : path) (tok : string) (w1 : World),
        match fetch_content env (auth_request url tok) w1 with
        | (Returns content, w2) =>
            auth_fetch env url dest tok w1 =
            (Returns (Some dest), write_file dest content w2)
        | (Raises e, w2) =>
            auth_fetch env url dest tok w1 =
            (Returns None,
             emit (Log WARNING ("Could not download " +:+ url +:+ ". "
                                +:+ exn_str e +:+ ".")) w2)
        end).
Proof.
  split_and!.
  - destruct (DownloadUrl_staged env url dest_dir w) as (r & w' & H & Hs & _).
    by exists r, w'.
  - apply DownloadAuthUrl_staged.
  - apply DownloadUrl_cases.
  - intros dest tok w1. apply auth_fetch_cases.
Qed.

(** C10. When no token is cached and the metadata server gives none,
    [_DownloadAuthUrl] leaves the file it reserved behind, empty: the
    plain download it falls back to reserves a second file in the same
    directory, fetches into that one only, and returns its path or
    [None]; no other file changes. *)
Theorem DownloadAuthUrl_fallback_abandons (env : Env) (url dest_dir : string)
    (w : World) :
  let p1 := (dest_dir, fresh (listdir dest_dir (files w))) in
  let p2 := (dest_dir, fresh (listdir dest_dir (<[p1 := ""]> (files w)))) in
  let asked :=
    events w
    ++ [Log INFO ("Downloading url from " +:+ url +:+ " to "
                  +:+ path_str p1 +:+ " using authentication token.")] in
  str_truthy (token w) = false ->
  opt_dict_truthy (metadata_server_key env asked token_metadata_key) = false ->
  p1 <> p2 /\ files w !! p1 = None /\ files w !! p2 = None
  /\ exists r w',
       _DownloadAuthUrl env url dest_dir w = (Returns r, w')
       /\ (r = Some p2 \/ (r = None /\ warned w'))
       /\ files w' !! p1 = Some ""
       /\ is_Some (files w' !! p2)
       /\ (forall q, q <> p1 -> q <> p2 -> files w' !! q = files w !! q)
       /\ exists w2,
            files w2 = <[p1 := ""]> (files w)
            /\ _DownloadUrl env url dest_dir w2 = (Returns r, w')
            /\ grows (plain_event p2) w2 w'.
Proof.
  intros p1 p2 asked Ht Hresp.
  pose proof (fresh_path dest_dir (files w)) as Hp1. fold p1 in Hp1.
  pose proof (fresh_path dest_dir (<[p1 := ""]> (files w))) as Hp2.
  fold p2 in Hp2.
  assert (Hne : p1 <> p2).
  { intros E. rewrite <- E in Hp2. by rewrite lookup_insert_eq in Hp2. }
  split_and!; [done | done | |].
  { by rewrite lookup_insert_ne in Hp2. }
  rewrite DownloadAuthUrl_uncached by done. cbv zeta. fold p1.
  change (events (emit _ (write_file p1 "" w))) with asked.
  rewrite Hresp.
  match goal with |- context [_DownloadUrl env url dest_dir ?w3] =>
    set (w2 := w3) end.
  destruct (DownloadUrl_run env url dest_dir w2)
    as (r & w' & Hrun & Hr & Hd & (T & F & D & G)).
  change (files w2) with (<[p1 := ""]> (files w)) in *. fold p2 in Hr, Hd, F, G.
  exists r, w'. split_and!; [done | done | | done | | by exists w2].
  - rewrite F by done. apply lookup_insert_eq.
  - intros q Hq1 Hq2. rewrite F by done. by apply lookup_insert_ne.
Qed.

Lemma DownloadAuthUrl_fallback_abandons_witness :
  exists p1 p2 w',
    p1 <> p2
    /\ _DownloadAuthUrl offline "https://storage.googleapis.com/bk/o"
         "/scripts" fresh_world = (Returns None, w')
    /\ files w' !! p1 = Some "" /\ is_Some (files w' !! p2).
Proof.
  destruct (DownloadAuthUrl_fallback_abandons offline
              "https://storage.googleapis.com/bk/o" "/scripts" fresh_world
              eq_refl eq_refl)
    as (Hne & _ & _ & r & w' & Hrun & Hr & H1 & H2 & _).
  eexists _, _, w'. split_and!; [exact Hne | | exact H1 | exact H2].
  rewrite Hrun. f_equal. f_equal.
  assert (E : fst (_DownloadAuthUrl offline
                     "https://storage.googleapis.com/bk/o" "/scripts"
                     fresh_world) = Returns None) by (vm_compute; reflexivity).
  rewrite Hrun in E. simpl in E. by injection E.
Defined.

(** ** Scripts from attributes *)

Lemma or_empty_Some {V : Type} (d : gmap string V) : or_empty (Some d) = d.
Proof.
  unfold or_empty, opt_dict_truthy, dict_truthy. simpl.
  case_bool_decide; simpl; congruence.
Qed.

Lemma or_empty_None {V : Type} : or_empty (None : option (gmap string V)) = ∅.
Proof. reflexivity. Qed.

Lemma dict_truthy_insert {V : Type} (k : string) (v : V) (d : gmap string V) :
  dict_truthy (<[k := v]> d) = true.
Proof.
  unfold dict_truthy. case_bool_decide as E; [| done].
  exfalso. by apply insert_non_empty in E.
Qed.

Lemma dict_truthy_lookup {V : Type} (k : string) (v : V) (d : gmap string V) :
  d !! k = Some v -> dict_truthy d = true.
Proof.
  intros H. unfold dict_truthy. case_bool_decide as E; [| done].
  subst d. by rewrite lookup_empty in H.
Qed.

Lemma script_keys_differ (script_type : string) :
  script_type +:+ "-script" <> script_type +:+ "-script-url".
Proof. intros E. by apply String.app_inj in E. Qed.

Lemma str_truthy_Some (v : string) : v <> "" -> str_truthy (Some v) = true.
Proof. by destruct v. Qed.

(** What [lstrip] removes is white space, and what it leaves does not
    begin with white space. *)
Lemma lstrip_spec (s : string) :
  exists ws,
    s = ws +:+ lstrip s
    /\ string_forallb isspace ws = true
    /\ (lstrip s = ""
        \/ exists c rest, lstrip s = String c rest /\ isspace c = false).
Proof.
  induction s as [|c s (ws & E & Hws & Hrest)]; simpl.
  - exists "". split_and!; [done | done | by left].
  - destruct (isspace c) eqn:Hc.
    + exists (String c ws). split_and!; [| | done].
      * rewrite sapp_cons. by rewrite <- E.
      * simpl. by rewrite Hc, Hws.
    + exists "". split_and!; [done | done |]. right. by exists c, s.
Qed.

Section AttributeScripts.
Variable env : Env.
Variable script_type : string.

Lemma stage_inline_run (attribute_data : attributes) (dest_dir : string)
    (script_dict : gmap string (option path)) (w : World) :
  let key := script_type +:+ "-script" in
  let dest := (dest_dir, fresh (listdir dest_dir (files w))) in
  stage_inline script_type attribute_data dest_dir script_dict w =
  if str_truthy (attribute_data !! key) then
    (Returns (<[key := Some dest]> script_dict),
     write_file dest (lstrip (default "" (attribute_data !! key)))
       (write_file dest ""
          (emit (Log INFO ("Found " +:+ key +:+ " in metadata.")) w)))
  else (Returns script_dict, w).
Proof.
  intros key dest. unfold stage_inline. fold key.
  by destruct (str_truthy (attribute_data !! key)).
Qed.

Lemma stage_url_run (attribute_data : attributes) (dest_dir : string)
    (script_dict : gmap string (option path)) (w : World) :
  let key := script_type +:+ "-script-url" in
  let w0 := emit (Log INFO ("Found " +:+ key +:+ " in metadata.")) w in
  if str_truthy (attribute_data !! key) then
    exists r w1,
      _DownloadScript env (default "" (attribute_data !! key)) dest_dir w0
        = (Returns r, w1)
      /\ staged dest_dir w r w1
      /\ stage_url env script_type attribute_data dest_dir script_dict w =
         (Returns (<[key := r]> script_dict),
          match r with
          | None =>
              emit (Log WARNING "Failed to download metadata script.") w1
          | Some _ => w1
          end)
  else
    stage_url env script_type attribute_data dest_dir script_dict w =
    (Returns script_dict, w).
Proof.
  intros key w0. unfold stage_url. fold key.
  destruct (str_truthy (attribute_data !! key)); [| done].
  destruct (DownloadScript_staged env
              (default "" (attribute_data !! key)) dest_dir w0)
    as (r & w1 & Hrun & Hst).
  exists r, w1. split_and!; [done | done |].
  unfold bind, logger_info. fold w0. rewrite Hrun.
  by destruct r.
Qed.

Lemma GetAttributeScripts_unfold (attribute_data : option attributes)
    (dest_dir : string) (w : World) :
  _GetAttributeScripts env script_type attribute_data dest_dir w =
  match stage_inline script_type (or_empty attribute_data) dest_dir ∅ w with
  | (Returns m1, w1) =>
      stage_url env script_type (or_empty attribute_data) dest_dir m1 w1
  | (Raises e, w1) => (Raises e, w1)
  end.
Proof.
  unfold _GetAttributeScripts, bind.
  destruct (stage_inline _ _ _ _ _) as [[m1|e] w1]; [| done].
  destruct (stage_url _ _ _ _ _ _) as [[m2|e] w2]; done.
Qed.

Lemma GetAttributeScripts_returns (attribute_data : option attributes)
    (dest_dir : string) (w : World) :
  exists m w',
    _GetAttributeScripts env script_type attribute_data dest_dir w
    = (Returns m, w').
Proof.
  rewrite GetAttributeScripts_unfold, stage_inline_run. cbv zeta.
  destruct (str_truthy _);
    match goal with |- context [stage_url _ _ ?a ?d ?m ?w1] =>
      pose proof (stage_url_run a d m w1) as H end;
    cbv zeta in H; destruct (str_truthy _);
    [destruct H as (r & w2 & _ & _ & ->) | rewrite H
    | destruct H as (r & w2 & _ & _ & ->) | rewrite H]; by eexists _, _.
Qed.
End AttributeScripts.

(** C7. The mapping of [_GetAttributeScripts] has the key
    [<type>-script-url] exactly when the attributes give it a non-empty
    value, and its value is then what the download returned: when the
    download failed and returned [None], the key is there with the value
    [None]; when the attributes do not declare the URL, the key is not
    there. *)
Theorem GetAttributeScripts_url_key (env : Env) (script_type : string)
    (attrs : attributes) (dest_dir : string) (w : World) :
  let key := script_type +:+ "-script-url" in
  exists m w',
    _GetAttributeScripts env script_type (Some attrs) dest_dir w
    = (Returns m, w')
    /\ if str_truthy (attrs !! key) then
         exists m1 w1 r w2,
           stage_inline script_type attrs dest_dir ∅ w = (Returns m1, w1)
           /\ _DownloadScript env (default "" (attrs !! key)) dest_dir
                (emit (Log INFO ("Found " +:+ key +:+ " in metadata.")) w1)
              = (Returns r, w2)
           /\ m = <[key := r]> m1
           /\ match r with
              | None => m !! key = Some None /\ key ∈ dom m
              | Some p => m !! key = Some (Some p)
              end
       else m !! key = None.
Proof.
  intros key. rewrite GetAttributeScripts_unfold, or_empty_Some.
  destruct (stage_inline script_type attrs dest_dir ∅ w) as [r1 w1] eqn:E1.
  pose proof (stage_inline_run script_type attrs dest_dir ∅ w) as Hin.
  cbv zeta in Hin. rewrite E1 in Hin.
  assert (exists m1, r1 = Returns m1 /\ m1 !! key = None) as (m1 & -> & Hm1).
  { destruct (str_truthy _); injection Hin as -> _; eexists; (split; [done |]).
    - rewrite lookup_insert_ne; [done | apply script_keys_differ].
    - done. }
  pose proof (stage_url_run env script_type attrs dest_dir m1 w1) as Hurl.
  cbv zeta in Hurl. fold key in Hurl.
  destruct (str_truthy (attrs !! key)).
  - destruct Hurl as (r & w2 & Hrun & _ & ->).
    eexists _, _. split; [done |]. exists m1, w1, r, w2.
    split_and!; [done | done | done |].
    destruct r; rewrite ?lookup_insert_eq; [done |].
    split; [done |]. apply elem_of_dom. rewrite lookup_insert_eq. by eexists.
  - rewrite Hurl. by eexists _, _.
Qed.

(** C8. For a non-empty value under [<type>-script], [_GetAttributeScripts]
    records the key with the path of a new file in the destination
    directory, and that file holds the value without its leading white
    space, the rest as it is; with no URL declared this is the only key.
    So for [{"startup-script": "  echo hi"}] the mapping has one key and
    the file holds [echo hi]. *)
Theorem GetAttributeScripts_inline (env : Env) (script_type : string)
    (attrs : attributes) (dest_dir : string) (w : World) (value : string) :
  let key := script_type +:+ "-script" in
  attrs !! key = Some value ->
  value <> "" ->
  exists p m w',
    _GetAttributeScripts env script_type (Some attrs) dest_dir w
    = (Returns m, w')
    /\ m !! key = Some (Some p)
    /\ p.1 = dest_dir
    /\ files w !! p = None
    /\ files w' !! p = Some (lstrip value)
    /\ (exists ws,
          value = ws +:+ lstrip value
          /\ string_forallb isspace ws = true
          /\ (lstrip value = ""
              \/ exists c rest,
                   lstrip value = String c rest /\ isspace c = false))
    /\ (str_truthy (attrs !! (script_type +:+ "-script-url")) = false ->
        m = {[ key := Some p ]}).
Proof.
  intros key Hval Hne.
  rewrite GetAttributeScripts_unfold, or_empty_Some, stage_inline_run.
  cbv zeta. fold key. rewrite Hval, (str_truthy_Some value Hne). simpl.
  set (p := (dest_dir, fresh (listdir dest_dir (files w)))).
  set (w1 := write_file p (lstrip value) _).
  pose proof (fresh_path dest_dir (files w)) as Hfresh. fold p in Hfresh.
  assert (Hp : files w1 !! p = Some (lstrip value))
    by (simpl; apply lookup_insert_eq).
  pose proof (stage_url_run env script_type attrs dest_dir
                (<[key := Some p]> ∅) w1) as Hurl.
  cbv zeta in Hurl.
  destruct (str_truthy (attrs !! (script_type +:+ "-script-url"))).
  - destruct Hurl as (r & w2 & _ & [Hkeep _] & ->).
    eexists p, _, _. split; [done |].
    split_and!; [| done | done | | apply lstrip_spec | done].
    + rewrite lookup_insert_ne by (apply not_eq_sym, script_keys_differ).
      apply lookup_insert_eq.
    + destruct r; simpl; rewrite Hkeep; by rewrite ?Hp.
  - rewrite Hurl. eexists p, _, _. split; [done |].
    split_and!; [apply lookup_insert_eq | done | done | done
                | apply lstrip_spec | done].
Qed.

Lemma GetAttributeScripts_inline_witness :
  exists p w',
    _GetAttributeScripts offline "startup"
      (Some {[ "startup-script" := "  echo hi" ]}) "/scripts" fresh_world
    = (Returns {[ "startup-script" := Some p ]}, w')
    /\ files w' !! p = Some "echo hi".
Proof.
  assert (Hval : ({[ "startup-script" := "  echo hi" ]} : attributes)
                 !! ("startup" +:+ "-script") = Some "  echo hi")
    by (vm_compute; reflexivity).
  assert (Hurl : str_truthy
                   (({[ "startup-script" := "  echo hi" ]} : attributes)
                    !! ("startup" +:+ "-script-url")) = false)
    by (vm_compute; reflexivity).
  destruct (GetAttributeScripts_inline offline "startup"
              {[ "startup-script" := "  echo hi" ]} "/scripts" fresh_world
              "  echo hi" Hval)
    as (p & m & w' & Hrun & _ & _ & _ & Hfile & _ & Hone).
  { intros E. discriminate E. }
  exists p, w'. specialize (Hone Hurl). subst m.
  split; [exact Hrun | exact Hfile].
Defined.

(** ** Instance before project *)

Lemma attributes_of_run (tree : metadata_tree) (top what : string) (w : World) :
  attributes_of tree top what w =
  (Returns (attributes_in tree top),
   warn_missing what (attributes_in tree top) w).
Proof.
  unfold attributes_of, attributes_in, try_except, bind, subscript.
  destruct (tree !! top) as [node|]; simpl; [| done].
  destruct (node !! "attributes"); done.
Qed.

Section Orchestration.
Variable env : Env.
Variable script_type : string.

Lemma GetScripts_unfold (dest_dir : string) (w : World) :
  let tree := or_empty (metadata_server env (events w)) in
  let instance_data := attributes_in tree "instance" in
  let project_data := attributes_in tree "project" in
  let w1 :=
    warn_missing "Project" project_data
      (warn_missing "Instance" instance_data
         (emit (GetMetadataCall None None None) w)) in
  GetScripts env script_type dest_dir w =
  match _GetAttributeScripts env script_type instance_data dest_dir w1 with
  | (Returns scripts, w2) =>
      if dict_truthy scripts then (Returns scripts, w2)
      else _GetAttributeScripts env script_type project_data dest_dir w2
  | (Raises e, w2) => (Raises e, w2)
  end.
Proof.
  intros tree instance_data project_data w1.
  unfold GetScripts, bind, watcher_GetMetadata. fold tree.
  rewrite !attributes_of_run. fold instance_data project_data w1.
  destruct (_GetAttributeScripts env script_type instance_data dest_dir w1)
    as [[scripts|e] w2]; [| done].
  by destruct (dict_truthy scripts).
Qed.

(** Attributes that declare a script give a mapping that is not empty;
    attributes that declare none give the empty mapping and do nothing. *)
Lemma GetAttributeScripts_declared (attrs : attributes) (dest_dir : string)
    (w : World) :
  if declares script_type attrs then
    exists m w',
      _GetAttributeScripts env script_type (Some attrs) dest_dir w
      = (Returns m, w') /\ dict_truthy m = true
  else
    _GetAttributeScripts env script_type (Some attrs) dest_dir w
    = (Returns ∅, w).
Proof.
  unfold declares.
  rewrite GetAttributeScripts_unfold, or_empty_Some, stage_inline_run.
  cbv zeta.
  destruct (str_truthy (attrs !! (script_type +:+ "-script"))); simpl;
    match goal with |- context [stage_url _ _ ?a ?d ?m ?w1] =>
      pose proof (stage_url_run env script_type a d m w1) as H end;
    cbv zeta in H;
    destruct (str_truthy (attrs !! (script_type +:+ "-script-url")));
    try (destruct H as (r & w2 & _ & _ & ->); eexists _, _;
         split; [done | apply dict_truthy_insert]).
  - rewrite H. eexists _, _. split; [done | apply dict_truthy_insert].
  - exact H.
Qed.
End Orchestration.

(** C1. [GetScripts] computes the mapping of the instance attributes
    first; when that mapping is not empty it is the result and nothing is
    computed for the project; only when it is empty is the mapping of the
    project attributes computed, from the world the first computation
    left, and returned.  The result is one of the two mappings, never a
    merge, and an instance mapping with an entry whose value is [None] is
    returned as it is. *)
Theorem GetScripts_instance_first (env : Env) (script_type dest_dir : string)
    (w : World) :
  let tree := or_empty (metadata_server env (events w)) in
  let instance_data := attributes_in tree "instance" in
  let project_data := attributes_in tree "project" in
  let w1 :=
    warn_missing "Project" project_data
      (warn_missing "Instance" instance_data
         (emit (GetMetadataCall None None None) w)) in
  exists scripts w2,
    _GetAttributeScripts env script_type instance_data dest_dir w1
    = (Returns scripts, w2)
    /\ (if dict_truthy scripts
        then GetScripts env script_type dest_dir w = (Returns scripts, w2)
        else GetScripts env script_type dest_dir w =
             _GetAttributeScripts env script_type project_data dest_dir w2)
    /\ (forall key,
          scripts !! key = Some None ->
          GetScripts env script_type dest_dir w = (Returns scripts, w2)).
Proof.
  intros tree instance_data project_data w1.
  pose proof (GetScripts_unfold env script_type dest_dir w) as Hun.
  cbv zeta in Hun. fold tree instance_data project_data w1 in Hun.
  destruct (GetAttributeScripts_returns env script_type instance_data
              dest_dir w1) as (scripts & w2 & Hrun).
  rewrite Hrun in Hun. exists scripts, w2. split_and!; [done | |].
  - by destruct (dict_truthy scripts).
  - intros key Hkey. by rewrite (dict_truthy_lookup key None) in Hun.
Qed.

Lemma GetScripts_instance_first_witness :
  exists scripts w2,
    scripts !! "startup-script-url" = Some None
    /\ GetScripts
         (serving {[ "startup-script-url" := "https://bad.invalid/x" ]}
            {[ "startup-script" := "echo hi" ]})
         "startup" "/scripts" fresh_world
       = (Returns scripts, w2).
Proof.
  destruct (GetScripts_instance_first
              (serving {[ "startup-script-url" := "https://bad.invalid/x" ]}
                 {[ "startup-script" := "echo hi" ]})
              "startup" "/scripts" fresh_world)
    as (scripts & w2 & Hrun & _ & Hnull).
  exists scripts, w2.
  assert (Hkey : scripts !! "startup-script-url" = Some None).
  { match type of Hrun with ?run = _ =>
      assert (Hc : match run.1 with
                   | Returns m => m !! "startup-script-url"
                   | Raises _ => None
                   end = Some None) by (vm_compute; reflexivity)
    end.
    rewrite Hrun in Hc. exact Hc. }
  split; [exact Hkey | exact (Hnull _ Hkey)].
Defined.

(** C9, as the code has it.  When the instance attributes declare a script
    of the type, inline or by URL, [GetScripts] returns the mapping of the
    instance attributes and computes nothing from the project attributes;
    when they declare none, however many other attributes the instance
    has, [GetScripts] returns the mapping of the project attributes. *)
Theorem GetScripts_instance_shadows (env : Env) (script_type dest_dir : string)
    (w : World) (attrs : attributes) :
  let tree := or_empty (metadata_server env (events w)) in
  let project_data := attributes_in tree "project" in
  let w1 :=
    warn_missing "Project" project_data
      (emit (GetMetadataCall None None None) w) in
  attributes_in tree "instance" = Some attrs ->
  if declares script_type attrs then
    GetScripts env script_type dest_dir w =
    _GetAttributeScripts env script_type (Some attrs) dest_dir w1
  else
    GetScripts env script_type dest_dir w =
    _GetAttributeScripts env script_type project_data dest_dir w1.
Proof.
  intros tree project_data w1 Hinst.
  rewrite GetScripts_unfold. cbv zeta. fold tree. rewrite Hinst.
  fold project_data. simpl. fold w1.
  pose proof (GetAttributeScripts_declared env script_type attrs dest_dir w1)
    as Hd.
  destruct (declares script_type attrs).
  - destruct Hd as (m & w' & -> & ->). done.
  - rewrite Hd. done.
Qed.

Lemma GetScripts_instance_shadows_witness :
  GetScripts
    (serving {[ "startup-script" := "echo a" ]}
       {[ "startup-script" := "echo b"; "shutdown-script" := "echo c" ]})
    "startup" "/scripts" fresh_world
  = _GetAttributeScripts
      (serving {[ "startup-script" := "echo a" ]}
         {[ "startup-script" := "echo b"; "shutdown-script" := "echo c" ]})
      "startup" (Some {[ "startup-script" := "echo a" ]}) "/scripts"
      (emit (GetMetadataCall None None None) fresh_world).
Proof.
  assert (Hinst :
    attributes_in
      (or_empty
         (metadata_server
            (serving {[ "startup-script" := "echo a" ]}
               {[ "startup-script" := "echo b";
                  "shutdown-script" := "echo c" ]})
            (events fresh_world))) "instance"
    = Some {[ "startup-script" := "echo a" ]})
    by (vm_compute; reflexivity).
  pose proof (GetScripts_instance_shadows _ "startup" "/scripts" fresh_world
                _ Hinst) as H.
  assert (Hd : declares "startup" {[ "startup-script" := "echo a" ]} = true)
    by (vm_compute; reflexivity).
  rewrite Hd in H.
  assert (Hp :
    attributes_in
      (or_empty
         (metadata_server
            (serving {[ "startup-script" := "echo a" ]}
               {[ "startup-script" := "echo b";
                  "shutdown-script" := "echo c" ]})
            (events fresh_world))) "project"
    = Some {[ "startup-script" := "echo b"; "shutdown-script" := "echo c" ]})
    by (vm_compute; reflexivity).
  rewrite Hp in H. exact H.
Defined.

(** C9, as the claim has it, fails: an instance with attributes, none of
    them a script of the type, does not keep the project's script out. *)
Lemma GetScripts_project_not_ignored :
  ({[ "hostname" := "vm-1" ]} : attributes) <> ∅
  /\ (exists p,
        (GetScripts
           (serving {[ "hostname" := "vm-1" ]}
              {[ "startup-script" := "echo hi" ]})
           "startup" "/scripts" fresh_world).1
        = Returns {[ "startup-script" := Some p ]})
  /\ (GetScripts (serving {[ "hostname" := "vm-1" ]} ∅)
        "startup" "/scripts" fresh_world).1
     = Returns ∅
  /\ (_GetAttributeScripts
        (serving {[ "hostname" := "vm-1" ]}
           {[ "startup-script" := "echo hi" ]})
        "startup" (Some {[ "hostname" := "vm-1" ]}) "/scripts" fresh_world).1
     = Returns ∅.
Proof.
  split_and!.
  - apply insert_non_empty.
  - eexists. vm_compute. reflexivity.
  - vm_compute. reflexivity.
  - vm_compute. reflexivity.
Qed.

(** * Further properties *)

(** ** What a download does, event by event *)

(** A retried operation that adds one event per attempt adds a run of
    them. *)
Lemma Wrapper_trace {A : Type} (func : Py World A) (attempt : event) :
  (forall s r s',
     func s = (r, s') ->
     events s' = events s ++ [attempt] /\ token s' = token s) ->
  forall s r s',
    Wrapper time_sleep func s = (r, s') ->
    token s' = token s
    /\ exists body, events s' = events s ++ body /\ retry_run attempt body.
Proof.
  intros Hfunc s r s'. rewrite Wrapper_unfold. unfold retry_run.
  destruct (func s) as [[v|e1] s1] eqn:E1; apply Hfunc in E1 as [E1 T1].
  { intros [= <- <-]. split; [done |]. exists [attempt]. auto. }
  destruct (is_unavailable e1);
    [| intros [= <- <-]; split; [done |]; exists [attempt]; auto].
  destruct (func (time_sleep 5 s1)) as [[v|e2] s2] eqn:E2;
    apply Hfunc in E2 as [E2 T2]; simpl in E2, T2; rewrite E1 in E2;
    rewrite <- !app_assoc in E2; simpl in E2.
  { intros [= <- <-]. split; [congruence |]. eexists. split; [exact E2 |]. auto. }
  destruct (is_unavailable e2);
    [| intros [= <- <-]; split; [congruence |]; eexists;
       split; [exact E2 |]; auto].
  destruct (func (time_sleep 5 s2)) as [[v|e3] s3] eqn:E3;
    apply Hfunc in E3 as [E3 T3]; simpl in E3, T3; rewrite E2 in E3;
    rewrite <- !app_assoc in E3; simpl in E3.
  { intros [= <- <-]. split; [congruence |]. eexists. split; [exact E3 |]. auto. }
  destruct (is_unavailable e3); intros [= <- <-].
  - split; [simpl; congruence |]. eexists. split; [| by do 3 right].
    simpl. rewrite E3, <- app_assoc. done.
  - split; [congruence |]. eexists. split; [exact E3 |]. auto.
Qed.

Lemma urlretrieve_events (env : Env) (url : string) (dest : path) (w : World)
    (r : result unit) (w' : World) :
  urlretrieve env (url, dest) w = (r, w') ->
  events w' = events w ++ [UrlRetrieve url dest] /\ token w' = token w.
Proof.
  unfold urlretrieve.
  destruct (url_retrieve env (events w) url) as [data | e [data|]];
    by intros [= <- <-].
Qed.

Lemma urlopen_events (env : Env) (request : Request) (w : World)
    (r : result (result string)) (w' : World) :
  urlopen env request w = (r, w') ->
  events w' = events w ++ [UrlOpen request] /\ token w' = token w.
Proof. unfold urlopen. by intros [= <- <-]. Qed.

(** X4. A plain download logs one line, fetches the URL into the file it
    reserved one to three times, with a sleep of 5 seconds after each
    failed attempt that is retried, and logs a warning when it returns
    [None]; it asks for no token, sends no request with one and keeps the
    cached token. *)
Theorem DownloadUrl_trace (env : Env) (url dest_dir : string) (w : World) :
  let dest := (dest_dir, fresh (listdir dest_dir (files w))) in
  exists r w' body tail,
    _DownloadUrl env url dest_dir w = (Returns r, w')
    /\ token w' = token w
    /\ events w' =
         events w
         ++ [Log INFO ("Downloading url from " +:+ url +:+ " to "
                       +:+ path_str dest +:+ ".")]
         ++ body ++ tail
    /\ retry_run (UrlRetrieve url dest) body
    /\ match r with
       | Some p => p = dest /\ tail = []
       | None => exists msg, tail = [Log WARNING msg]
       end.
Proof.
  intros dest. pose proof (DownloadUrl_cases env url dest_dir w) as Hc.
  cbv zeta in Hc. fold dest in Hc.
  destruct (_UrlRetrieveWithRetry env (url, dest) _) as [[[]|e] w2] eqn:E;
    apply (Wrapper_trace (urlretrieve env (url, dest)) (UrlRetrieve url dest))
      in E as (T & body & Ev & Hbody);
    try (intros s r s'; apply urlretrieve_events).
  - exists (Some dest), w2, body, []. split_and!; try done.
    rewrite Ev. simpl. by rewrite app_nil_r, <- app_assoc.
  - eexists None, _, body, _.
    split_and!; [exact Hc | done | | done | by eexists].
    simpl. rewrite Ev. simpl. by rewrite <- !app_assoc.
Qed.

(** X5. With a token cached, an authenticated download logs one line and
    sends one to three requests, each for the given URL with the headers
    [Metadata-Flavor: Google] and [Authorization: <token>] and nothing
    else; it makes no metadata call and no plain fetch and keeps the
    token.  When it returns [None] it has logged a warning and the file it
    reserved is left behind, empty. *)
Theorem DownloadAuthUrl_cached_trace (env : Env) (url dest_dir : string)
    (w : World) (tok : string) :
  let dest := (dest_dir, fresh (listdir dest_dir (files w))) in
  let request :=
    MkRequest url [("Metadata-Flavor", "Google"); ("Authorization", tok)] in
  token w = Some tok ->
  tok <> "" ->
  exists r w' body tail,
    _DownloadAuthUrl env url dest_dir w = (Returns r, w')
    /\ token w' = Some tok
    /\ events w' =
         events w
         ++ [Log INFO ("Downloading url from " +:+ url +:+ " to "
                       +:+ path_str dest +:+ " using authentication token.")]
         ++ body ++ tail
    /\ retry_run (UrlOpen request) body
    /\ match r with
       | Some p => p = dest /\ tail = []
       | None =>
           (exists msg, tail = [Log WARNING msg])
           /\ files w' !! dest = Some ""
       end.
Proof.
  intros dest request Htok Hne.
  assert (Ht : str_truthy (token w) = true)
    by (rewrite Htok; by destruct tok).
  rewrite DownloadAuthUrl_cached by done. rewrite Htok. simpl. fold dest.
  set (w1 := emit _ (write_file dest "" w)).
  pose proof (auth_fetch_cases env url dest tok w1) as Hc.
  unfold fetch_content, bind, read_decode in Hc.
  change (auth_request url tok) with request in Hc.
  destruct (_UrlOpenWithRetry env request w1) as [[response|e] w2] eqn:E;
    pose proof E as Ekeep;
    apply (UrlOpenWithRetry_keeps env request tok) in Ekeep as (F & _ & _);
    try (subst request; simpl; set_solver);
    apply (Wrapper_trace (urlopen env request) (UrlOpen request))
      in E as (T & body & Ev & Hbody);
    try (intros s r s'; apply urlopen_events).
  - destruct response as [content|e].
    + eexists (Some dest), _, body, [].
      split_and!; [exact Hc | | | done | done | done].
      * simpl. by rewrite T.
      * simpl. rewrite Ev. simpl. by rewrite app_nil_r, <- app_assoc.
    + eexists None, _, body, _.
      split_and!; [exact Hc | | | done | by eexists |].
      * simpl. by rewrite T.
      * simpl. rewrite Ev. simpl. by rewrite <- !app_assoc.
      * simpl. rewrite F. simpl. apply lookup_insert_eq.
  - eexists None, _, body, _.
    split_and!; [exact Hc | | | done | by eexists |].
    + simpl. by rewrite T.
    + simpl. rewrite Ev. simpl. by rewrite <- !app_assoc.
    + simpl. rewrite F. simpl. apply lookup_insert_eq.
Qed.

Lemma DownloadAuthUrl_cached_trace_witness :
  exists r w' body,
    _DownloadAuthUrl online "https://storage.googleapis.com/bk/o" "/scripts"
      token_world = (Returns r, w')
    /\ token w' = Some "Bearer abc"
    /\ retry_run
         (UrlOpen (MkRequest "https://storage.googleapis.com/bk/o"
                     [("Metadata-Flavor", "Google");
                      ("Authorization", "Bearer abc")])) body.
Proof.
  destruct (DownloadAuthUrl_cached_trace online
              "https://storage.googleapis.com/bk/o" "/scripts" token_world
              "Bearer abc" eq_refl)
    as (r & w' & body & tail & Hrun & Htok & _ & Hbody & _).
  { intros E. discriminate E. }
  exists r, w', body. split_and!; [exact Hrun | exact Htok | exact Hbody].
Defined.

(** ** What a download stores *)

(** X9. When the first fetch of a plain download succeeds, the path of the
    reserved file is returned, the file holds the data the fetch stored,
    no other file changes, and nothing but the log line and the one fetch
    has happened. *)
Theorem DownloadUrl_stores (env : Env) (url dest_dir : string) (w : World)
    (data : string) :
  let dest := (dest_dir, fresh (listdir dest_dir (files w))) in
  let line :=
    Log INFO ("Downloading url from " +:+ url +:+ " to "
              +:+ path_str dest +:+ ".") in
  url_retrieve env (events w ++ [line]) url = Stored data ->
  exists w',
    _DownloadUrl env url dest_dir w = (Returns (Some dest), w')
    /\ files w' = <[dest := data]> (files w)
    /\ events w' = events w ++ [line; UrlRetrieve url dest]
    /\ token w' = token w.
Proof.
  intros dest line Hfetch.
  pose proof (DownloadUrl_cases env url dest_dir w) as Hc.
  cbv zeta in Hc. fold dest line in Hc.
  unfold _UrlRetrieveWithRetry, _RetryOnUnavailable in Hc.
  rewrite Wrapper_unfold in Hc. unfold urlretrieve at 1 in Hc.
  simpl in Hc. rewrite Hfetch in Hc.
  eexists. split_and!; [exact Hc | | | done].
  - simpl. apply insert_insert_eq.
  - simpl. by rewrite <- app_assoc.
Qed.

Lemma DownloadUrl_stores_witness :
  exists p w',
    _DownloadUrl online "https://example.com/script.sh" "/scripts" fresh_world
    = (Returns (Some p), w')
    /\ files w' = <[p := "echo fetched"]> (files fresh_world).
Proof.
  destruct (DownloadUrl_stores online "https://example.com/script.sh"
              "/scripts" fresh_world "echo fetched" eq_refl)
    as (w' & Hrun & Hfiles & _).
  eexists _, w'. split; [exact Hrun | exact Hfiles].
Defined.

(** X10. With a token cached, when the first request is answered and the
    answer can be read and decoded, the content is written as it is to the
    reserved file, whose path is returned; no other file changes and only
    the one request was sent. *)
Theorem DownloadAuthUrl_stores (env : Env) (url dest_dir : string) (w : World)
    (tok content : string) :
  let dest := (dest_dir, fresh (listdir dest_dir (files w))) in
  let line :=
    Log INFO ("Downloading url from " +:+ url +:+ " to "
              +:+ path_str dest +:+ " using authentication token.") in
  token w = Some tok ->
  tok <> "" ->
  url_open env (events w ++ [line]) (auth_request url tok)
  = Returns (Returns content) ->
  exists w',
    _DownloadAuthUrl env url dest_dir w = (Returns (Some dest), w')
    /\ files w' = <[dest := content]> (files w)
    /\ events w' = events w ++ [line; UrlOpen (auth_request url tok)]
    /\ token w' = Some tok.
Proof.
  intros dest line Htok Hne Hfetch.
  assert (Ht : str_truthy (token w) = true)
    by (rewrite Htok; by destruct tok).
  rewrite DownloadAuthUrl_cached by done. rewrite Htok. simpl.
  fold dest line.
  pose proof (auth_fetch_cases env url dest tok
                (emit line (write_file dest "" w))) as Hc.
  unfold fetch_content, bind, read_decode, _UrlOpenWithRetry,
    _RetryOnUnavailable in Hc.
  rewrite Wrapper_unfold in Hc. unfold urlopen at 1 in Hc.
  simpl in Hc. rewrite Hfetch in Hc.
  eexists. split_and!; [exact Hc | | | done].
  - simpl. apply insert_insert_eq.
  - simpl. by rewrite <- app_assoc.
Qed.

Lemma DownloadAuthUrl_stores_witness :
  exists p w',
    _DownloadAuthUrl online "https://storage.googleapis.com/bk/o" "/scripts"
      token_world = (Returns (Some p), w')
    /\ files w' = <[p := "echo fetched"]> (files token_world).
Proof.
  destruct (DownloadAuthUrl_stores online
              "https://storage.googleapis.com/bk/o" "/scripts" token_world
              "Bearer abc" "echo fetched" eq_refl)
    as (w' & Hrun & Hfiles & _).
  { intros E. discriminate E. }
  { reflexivity. }
  eexists _, w'. split; [exact Hrun | exact Hfiles].
Defined.

(** X11. An exception raised while the answer is read or decoded is not
    retried, not even a network exception: after the one request that was
    answered, the warning is logged, [None] is returned and the reserved
    file stays empty. *)
Theorem DownloadAuthUrl_read_failure (env : Env) (url dest_dir : string)
    (w : World) (tok : string) (e : exn) :
  let dest := (dest_dir, fresh (listdir dest_dir (files w))) in
  let line :=
    Log INFO ("Downloading url from " +:+ url +:+ " to "
              +:+ path_str dest +:+ " using authentication token.") in
  token w = Some tok ->
  tok <> "" ->
  url_open env (events w ++ [line]) (auth_request url tok)
  = Returns (Raises e) ->
  exists w',
    _DownloadAuthUrl env url dest_dir w = (Returns None, w')
    /\ files w' = <[dest := ""]> (files w)
    /\ events w' =
         events w
         ++ [line; UrlOpen (auth_request url tok);
             Log WARNING ("Could not download " +:+ url +:+ ". "
                          +:+ exn_str e +:+ ".")].
Proof.
  intros dest line Htok Hne Hfetch.
  assert (Ht : str_truthy (token w) = true)
    by (rewrite Htok; by destruct tok).
  rewrite DownloadAuthUrl_cached by done. rewrite Htok. simpl.
  fold dest line.
  pose proof (auth_fetch_cases env url dest tok
                (emit line (write_file dest "" w))) as Hc.
  unfold fetch_content, bind, read_decode, _UrlOpenWithRetry,
    _RetryOnUnavailable in Hc.
  rewrite Wrapper_unfold in Hc. unfold urlopen at 1 in Hc.
  simpl in Hc. rewrite Hfetch in Hc.
  eexists. split_and!; [exact Hc | done |].
  simpl. by rewrite <- !app_assoc.
Qed.

Lemma DownloadAuthUrl_read_failure_witness :
  exists w',
    _DownloadAuthUrl stalling "https://storage.googleapis.com/bk/o" "/scripts"
      token_world = (Returns None, w')
    /\ List.filter is_url_open (events w')
       = [UrlOpen (auth_request "https://storage.googleapis.com/bk/o"
                     "Bearer abc")].
Proof.
  destruct (DownloadAuthUrl_read_failure stalling
              "https://storage.googleapis.com/bk/o" "/scripts" token_world
              "Bearer abc" (Exn socket_error "timed out") eq_refl)
    as (w' & Hrun & _ & Hev).
  { intros E. discriminate E. }
  { reflexivity. }
  exists w'. split; [exact Hrun |]. rewrite Hev. reflexivity.
Defined.

(** ** Wildcards *)

Lemma string_forallb_app (f : ascii -> bool) (s1 s2 : string) :
  string_forallb f (s1 +:+ s2) = string_forallb f s1 && string_forallb f s2.
Proof.
  induction s1 as [|c s1 IH]; [done |].
  rewrite sapp_cons. simpl. rewrite IH. by rewrite andb_assoc.
Qed.

Lemma bucket_char_not_wildcard (c : ascii) :
  bucket_char c = true -> not_wildcard c = true.
Proof.
  destruct c as [[] [] [] [] [] [] [] []]; vm_compute; congruence.
Qed.

Lemma lower_alnum_bucket_char (c : ascii) :
  lower_alnum c = true -> bucket_char c = true.
Proof. unfold bucket_char. intros ->. apply orb_true_r. Qed.

Lemma string_forallb_impl (f g : ascii -> bool) (s : string) :
  (forall c, f c = true -> g c = true) ->
  string_forallb f s = true -> string_forallb g s = true.
Proof.
  intros Hfg. induction s as [|c s IH]; simpl; [done |].
  intros H. apply andb_true_iff in H as [Hc Hs].
  by rewrite (Hfg c Hc), IH.
Qed.

Lemma is_bucket_not_wildcard (b : string) :
  is_bucket b -> string_forallb not_wildcard b = true.
Proof.
  intros (c1 & mid & c2 & -> & H1 & Hmid & H2). simpl.
  rewrite string_forallb_app. simpl.
  rewrite (bucket_char_not_wildcard c1), (bucket_char_not_wildcard c2)
    by by apply lower_alnum_bucket_char.
  rewrite (string_forallb_impl bucket_char not_wildcard mid); [done | | done].
  apply bucket_char_not_wildcard.
Qed.

Lemma host_style_not_wildcard (url : string) :
  host_style url -> string_forallb not_wildcard url = true.
Proof.
  intros (scheme & b & o & Hs & Hb & [_ Ho] & ->).
  rewrite !string_forallb_app, (is_bucket_not_wildcard b Hb), Ho.
  by destruct Hs as [-> | ->].
Qed.

Lemma path_style_not_wildcard (url : string) :
  path_style url -> string_forallb not_wildcard url = true.
Proof.
  intros (scheme & al & b & o & Hs & Hal & Hb & [_ Ho] & ->).
  rewrite !string_forallb_app, (is_bucket_not_wildcard b Hb), Ho.
  by destruct Hs as [-> | ->], Hal as [-> | ->].
Qed.

(** X6. A URL with a [*] or a [?] anywhere in it, a query string for
    one, and not beginning with [gs://] is always downloaded plainly,
    whatever its host. *)
Theorem DownloadScript_wildcard (env : Env) (url dest_dir : string) :
  startswith "gs://" url = false ->
  string_forallb not_wildcard url = false ->
  _DownloadScript env url dest_dir = _DownloadUrl env url dest_dir.
Proof.
  intros Hgs Hwild. unfold _DownloadScript. rewrite Hgs.
  destruct (re_match gs_regex_host url) eqn:E1.
  { apply gs_regex_host_spec, host_style_not_wildcard in E1. congruence. }
  destruct (re_match gs_regex_path url) eqn:E2; [| done].
  apply gs_regex_path_spec, path_style_not_wildcard in E2. congruence.
Qed.

Lemma DownloadScript_wildcard_witness :
  _DownloadScript offline "https://storage.googleapis.com/bk/o?generation=1"
    "/scripts"
  = _DownloadUrl offline "https://storage.googleapis.com/bk/o?generation=1"
      "/scripts".
Proof.
  apply (DownloadScript_wildcard offline
           "https://storage.googleapis.com/bk/o?generation=1" "/scripts");
    vm_compute; reflexivity.
Defined.

(** ** The mapping of a script type *)

Section MappingProperties.
Variable env : Env.
Variable script_type : string.

Lemma GetAttributeScripts_undeclared_run (data : option attributes)
    (dest_dir : string) (w : World) :
  declares_any script_type data = false ->
  _GetAttributeScripts env script_type data dest_dir w = (Returns ∅, w).
Proof.
  destruct data as [attrs|]; simpl; intros Hd.
  - pose proof (GetAttributeScripts_declared env script_type attrs dest_dir w)
      as H. by rewrite Hd in H.
  - rewrite GetAttributeScripts_unfold, or_empty_None, stage_inline_run.
    cbv zeta. rewrite lookup_empty. simpl.
    pose proof (stage_url_run env script_type ∅ dest_dir ∅ w) as H.
    cbv zeta in H. by rewrite lookup_empty in H.
Qed.

End MappingProperties.

(** X8. Attributes that are absent, or that give the two keys of the
    script type no value or the empty string, give the empty mapping and
    leave the world as it is: nothing is logged, no file is made. *)
Theorem GetAttributeScripts_undeclared (env : Env) (script_type : string)
    (data : option attributes) (dest_dir : string) (w : World) :
  declares_any script_type data = false ->
  _GetAttributeScripts env script_type data dest_dir w = (Returns ∅, w).
Proof. apply GetAttributeScripts_undeclared_run. Qed.

Lemma GetAttributeScripts_undeclared_witness :
  _GetAttributeScripts offline "startup"
    (Some {[ "startup-script" := ""; "shutdown-script" := "halt" ]})
    "/scripts" fresh_world
  = (Returns ∅, fresh_world).
Proof.
  apply (GetAttributeScripts_undeclared offline "startup"
           (Some {[ "startup-script" := ""; "shutdown-script" := "halt" ]})
           "/scripts" fresh_world).
  vm_compute. reflexivity.
Defined.

(** X7. When the attributes declare both an inline script and a URL, the
    mapping has exactly the two keys: the inline script under its key, in
    a file that holds the stripped value also after the download, and
    under the other key what the download returned, which is never the
    path of the inline script. *)
Theorem GetAttributeScripts_both (env : Env) (script_type : string)
    (attrs : attributes) (dest_dir : string) (w : World) (value url : string) :
  attrs !! (script_type +:+ "-script") = Some value ->
  value <> "" ->
  attrs !! (script_type +:+ "-script-url") = Some url ->
  url <> "" ->
  exists p r m w',
    _GetAttributeScripts env script_type (Some attrs) dest_dir w
    = (Returns m, w')
    /\ m = <[script_type +:+ "-script-url" := r]>
             {[ script_type +:+ "-script" := Some p ]}
    /\ size m = 2
    /\ r <> Some p
    /\ files w' !! p = Some (lstrip value).
Proof.
  intros Hval Hne Hurl Hune.
  rewrite GetAttributeScripts_unfold, or_empty_Some, stage_inline_run.
  cbv zeta. rewrite Hval, (str_truthy_Some value Hne). simpl.
  set (p := (dest_dir, fresh (listdir dest_dir (files w)))).
  set (w1 := write_file p (lstrip value) _).
  assert (Hp : files w1 !! p = Some (lstrip value))
    by (simpl; apply lookup_insert_eq).
  pose proof (stage_url_run env script_type attrs dest_dir
                (<[script_type +:+ "-script" := Some p]> ∅) w1) as Hu.
  cbv zeta in Hu. rewrite Hurl, (str_truthy_Some url Hune) in Hu.
  destruct Hu as (r & w2 & _ & [Hkeep Hr] & ->).
  exists p, r. eexists _, _. split_and!; [done | done | | |].
  - rewrite map_size_insert_None.
    + first [ by rewrite map_size_singleton
            | rewrite map_size_insert_None by apply lookup_empty;
              by rewrite map_size_empty ].
    + rewrite lookup_insert_ne by (apply script_keys_differ).
      apply lookup_empty.
  - intros ->. destruct Hr as (_ & Hnew & _). congruence.
  - destruct r; simpl; rewrite Hkeep; by rewrite ?Hp.
Qed.

Lemma GetAttributeScripts_both_witness :
  exists p q w',
    _GetAttributeScripts online "startup"
      (Some {[ "startup-script" := "echo a";
               "startup-script-url" := "https://example.com/s.sh" ]})
      "/scripts" fresh_world
    = (Returns (<["startup-script-url" := Some q]>
                  {[ "startup-script" := Some p ]}), w')
    /\ q <> p.
Proof.
  set (attrs := ({[ "startup-script" := "echo a";
                    "startup-script-url" := "https://example.com/s.sh" ]}
                 : attributes)).
  assert (H1 : attrs !! ("startup" +:+ "-script") = Some "echo a")
    by (vm_compute; reflexivity).
  assert (H2 : attrs !! ("startup" +:+ "-script-url")
               = Some "https://example.com/s.sh")
    by (vm_compute; reflexivity).
  destruct (GetAttributeScripts_both online "startup" attrs "/scripts"
              fresh_world "echo a" "https://example.com/s.sh" H1)
    as (p & r & m & w' & Hrun & Hm & _ & Hr & _);
    [intros E; discriminate E | exact H2 | intros E; discriminate E |].
  assert (Hsome : exists q, r = Some q).
  { assert (Hc : match (_GetAttributeScripts online "startup" (Some attrs)
                          "/scripts" fresh_world).1 with
                 | Returns m0 => is_Some (m0 !! "startup-script-url" ≫= id)
                 | Raises _ => False
                 end).
    { vm_compute. eexists. reflexivity. }
    rewrite Hrun, Hm in Hc. simpl in Hc.
    change ("startup" +:+ "-script-url") with "startup-script-url" in Hc.
    rewrite lookup_insert_eq in Hc. simpl in Hc.
    destruct r as [q|]; [by exists q | by destruct Hc]. }
  destruct Hsome as [q ->].
  exists p, q, w'. subst m. split; [exact Hrun | congruence].
Defined.

(** ** The orchestration as a whole *)

Lemma plain_event_download (dest : path) (ev : event) :
  plain_event dest ev -> download_event ev.
Proof. by destruct ev. Qed.

Lemma auth_event_download (tok : string) (ev : event) :
  auth_event tok ev -> download_event ev.
Proof. by destruct ev. Qed.

Section OrchestrationProperties.
Variable env : Env.

Lemma DownloadUrl_grows (url dest_dir : string) (w : World)
    (r : result (option path)) (w' : World) :
  _DownloadUrl env url dest_dir w = (r, w') -> grows download_event w w'.
Proof.
  destruct (DownloadUrl_run env url dest_dir w)
    as (r0 & w0 & -> & _ & _ & (_ & _ & _ & G)).
  intros [= <- <-]. eapply grows_mono; [apply plain_event_download | exact G].
Qed.

Lemma auth_fetch_grows (url : string) (dest : path) (tok : string) (w : World)
    (r : result (option path)) (w' : World) :
  auth_fetch env url dest tok w = (r, w') -> grows download_event w w'.
Proof.
  destruct (auth_fetch_run env url dest tok w)
    as (r0 & w0 & -> & _ & (_ & _ & _ & G)).
  intros [= <- <-]. eapply grows_mono; [apply auth_event_download | exact G].
Qed.

Lemma DownloadAuthUrl_grows (url dest_dir : string) (w : World)
    (r : result (option path)) (w' : World) :
  _DownloadAuthUrl env url dest_dir w = (r, w') -> grows download_event w w'.
Proof.
  destruct (str_truthy (token w)) eqn:Ht.
  - rewrite DownloadAuthUrl_cached by done. intros H.
    apply auth_fetch_grows in H. eapply grows_trans; [| exact H].
    eapply grows_trans; [| by apply grows_emit]. by apply grows_same.
  - rewrite DownloadAuthUrl_uncached by done. cbv zeta.
    destruct (opt_dict_truthy _); intros H;
      [apply auth_fetch_grows in H | apply DownloadUrl_grows in H];
      (eapply grows_trans; [| exact H]).
    + eapply grows_trans; [| by apply grows_same].
      eapply grows_trans; [| by apply grows_emit].
      eapply grows_trans; [| by apply grows_emit]. by apply grows_same.
    + eapply grows_trans; [| by apply grows_emit].
      eapply grows_trans; [| by apply grows_emit].
      eapply grows_trans; [| by apply grows_emit]. by apply grows_same.
Qed.

Lemma DownloadScript_grows (url dest_dir : string) (w : World)
    (r : result (option path)) (w' : World) :
  _DownloadScript env url dest_dir w = (r, w') -> grows download_event w w'.
Proof.
  unfold _DownloadScript.
  repeat match goal with |- context [if ?b then _ else _] => destruct b end;
    first [apply DownloadAuthUrl_grows | apply DownloadUrl_grows].
Qed.

Lemma GetAttributeScripts_grows (script_type : string)
    (data : option attributes) (dest_dir : string) (w : World)
    (r : result (gmap string (option path))) (w' : World) :
  _GetAttributeScripts env script_type data dest_dir w = (r, w') ->
  grows download_event w w'.
Proof.
  rewrite GetAttributeScripts_unfold, stage_inline_run. cbv zeta.
  set (attrs := or_empty data).
  destruct (str_truthy (attrs !! (script_type +:+ "-script")));
    match goal with |- context [stage_url _ _ ?a ?d ?m ?w1] =>
      pose proof (stage_url_run env script_type a d m w1) as H;
      assert (G1 : grows download_event w w1)
        by (first [apply grows_refl
                  | eapply grows_trans;
                    [apply grows_emit | apply grows_same; reflexivity];
                    done])
    end;
    cbv zeta in H;
    destruct (str_truthy (attrs !! (script_type +:+ "-script-url")));
    try (rewrite H; by intros [= <- <-]);
    destruct H as (r0 & w2 & Hrun & _ & ->); intros [= <- <-];
    apply DownloadScript_grows in Hrun;
    match type of Hrun with grows _ ?w0 _ =>
      match type of G1 with grows _ _ ?w1 =>
        assert (G0 : grows download_event w1 w0) by (by apply grows_emit)
      end
    end;
    (eapply grows_trans; [exact G1 |]);
    (eapply grows_trans; [exact G0 |]);
    (eapply grows_trans; [exact Hrun |]);
    destruct r0; first [apply grows_refl | by apply grows_emit].
Qed.
End OrchestrationProperties.


Lemma grows_warn_missing (P : event -> Prop) (what : string)
    (data : option attributes) (w : World) :
  (forall level msg, P (Log level msg)) ->
  grows P w (warn_missing what data w).
Proof.
  intros HP. destruct data; simpl; [apply grows_refl | by apply grows_emit].
Qed.


(** X2. When neither the instance nor the project declares a script of
    the type (no metadata at all, no attributes, or no non-empty value
    under the two keys), [GetScripts] returns the empty mapping; it has
    asked for the metadata once and logged a warning for each missing set
    of attributes, and has made no file and no fetch. *)
Theorem GetScripts_nothing_declared (env : Env) (script_type dest_dir : string)
    (w : World) :
  let tree := or_empty (metadata_server env (events w)) in
  let instance_data := attributes_in tree "instance" in
  let project_data := attributes_in tree "project" in
  declares_any script_type instance_data = false ->
  declares_any script_type project_data = false ->
  GetScripts env script_type dest_dir w =
  (Returns ∅,
   warn_missing "Project" project_data
     (warn_missing "Instance" instance_data
        (emit (GetMetadataCall None None None) w))).
Proof.
  intros tree instance_data project_data Hi Hp.
  rewrite GetScripts_unfold. cbv zeta. fold tree instance_data project_data.
  rewrite (GetAttributeScripts_undeclared_run env script_type instance_data)
    by done.
  change (dict_truthy (∅ : gmap string (option path))) with false. simpl.
  by apply GetAttributeScripts_undeclared_run.
Qed.

Lemma GetScripts_nothing_declared_witness :
  GetScripts offline "startup" "/scripts" fresh_world
  = (Returns ∅,
     MkWorld None ∅
       [GetMetadataCall None None None;
        Log WARNING "Instance attributes were not found.";
        Log WARNING "Project attributes were not found."]).
Proof.
  apply (GetScripts_nothing_declared offline "startup" "/scripts"
           fresh_world); reflexivity.
Defined.

(** X3. [GetScripts] begins by asking the metadata server for the whole
    tree, and asks for it once: every later metadata call is the query
    for the token of the default service account, not recursive and
    without retry. *)
Theorem GetScripts_metadata_calls (env : Env) (script_type dest_dir : string)
    (w : World) :
  exists r w' rest,
    GetScripts env script_type dest_dir w = (r, w')
    /\ events w' = events w ++ GetMetadataCall None None None :: rest
    /\ Forall download_event rest.
Proof.
  rewrite GetScripts_unfold. cbv zeta.
  set (instance_data := attributes_in _ "instance").
  set (project_data := attributes_in _ "project").
  set (w0 := emit (GetMetadataCall None None None) w).
  set (w1 := warn_missing "Project" project_data _).
  assert (G1 : grows download_event w0 w1).
  { eapply grows_trans; by apply grows_warn_missing. }
  assert (Hfin : forall (r : result (gmap string (option path))) w',
            grows download_event w0 w' ->
            exists r0 w'0 rest,
              (r, w') = (r0, w'0)
              /\ events w'0 = events w ++ GetMetadataCall None None None :: rest
              /\ Forall download_event rest).
  { intros r w' (added & Ev & Hall). exists r, w', added.
    split_and!; [done | | done]. rewrite Ev. simpl. by rewrite <- app_assoc. }
  destruct (_GetAttributeScripts env script_type instance_data dest_dir w1)
    as [[m1|e] w2] eqn:E1; apply GetAttributeScripts_grows in E1.
  - destruct (dict_truthy m1).
    + apply Hfin. by eapply grows_trans.
    + destruct (_GetAttributeScripts env script_type project_data dest_dir w2)
        as [r3 w3] eqn:E2. apply GetAttributeScripts_grows in E2.
      apply Hfin. eapply grows_trans; [| exact E2]. by eapply grows_trans.
  - apply Hfin. by eapply grows_trans.
Qed.

(** ** Network set-up on SUSE *)

Lemma interfaces_to_up_spec (interfaces : list string) (i : string) :
  i ∈ interfaces_to_up interfaces <-> i ∈ interfaces /\ i <> "eth0".
Proof.
  unfold interfaces_to_up. rewrite !list_elem_of_In, filter_In.
  rewrite negb_true_iff, String.eqb_neq. done.
Qed.

Lemma interfaces_to_up_nil (interfaces : list string) :
  (forall i, i ∈ interfaces -> i = "eth0") ->
  interfaces_to_up interfaces = [].
Proof.
  intros Hall. induction interfaces as [|i l IH]; [done |].
  unfold interfaces_to_up. simpl.
  rewrite (Hall i) by constructor. simpl. apply IH.
  intros j Hj. apply Hall. by constructor.
Qed.

Lemma network_path_no_slash (LOCALBASE : string) :
  ends_with_char "/" (Sles12.network_path LOCALBASE) = false.
Proof.
  unfold Sles12.network_path. induction LOCALBASE as [|c s IH]; [done |].
  rewrite sapp_cons. simpl.
  destruct (s +:+ "/etc/sysconfig/network") eqn:E; [| done].
  apply sapp_eq_nil in E as [_ E]. discriminate E.
Qed.

Lemma os_path_join_ifcfg (LOCALBASE interface : string) :
  os_path_join (Sles12.network_path LOCALBASE) ("ifcfg-" +:+ interface)
  = ifcfg_file LOCALBASE interface.
Proof.
  unfold os_path_join.
  change (startswith "/" ("ifcfg-" +:+ interface)) with false.
  rewrite network_path_no_slash, orb_false_r.
  case_bool_decide as E.
  - unfold Sles12.network_path in E. apply sapp_eq_nil in E as [_ E].
    discriminate E.
  - unfold Sles12.network_path, ifcfg_file. by rewrite sapp_assoc.
Qed.

Lemma interface_content_text (interface : string) :
  str_join newline (Sles12.interface_content interface) = ifcfg_text interface.
Proof.
  unfold Sles12.interface_content, ifcfg_text. simpl.
  by rewrite !sapp_assoc, sapp_nil_r.
Qed.

Lemma ifcfg_file_inj (LOCALBASE i j : string) :
  ifcfg_file LOCALBASE i = ifcfg_file LOCALBASE j -> i = j.
Proof.
  unfold ifcfg_file. intros E. apply String.app_inj in E.
  by apply (String.app_inj "/etc/sysconfig/network/ifcfg-") in E.
Qed.

Section Sles12Properties.
Variable status : list host_event -> list string -> option exn.
Variable LOCALBASE : string.

Lemma WriteIfcfg_cons (i : string) (l : list string) (h : Host) :
  Sles12._WriteIfcfg LOCALBASE (i :: l) h =
  Sles12._WriteIfcfg LOCALBASE l
    (host_emit
       (HostLog INFO "Created ifcfg file for interface %s." [Name i])
       (MkHost (<[ifcfg_file LOCALBASE i := ifcfg_text i]> (host_files h))
          (host_events h))).
Proof.
  rewrite <- interface_content_text, <- os_path_join_ifcfg. reflexivity.
Qed.

Lemma WriteIfcfg_run (interfaces : list string) (h : Host) :
  exists h',
    Sles12._WriteIfcfg LOCALBASE interfaces h = (Returns tt, h')
    /\ ifcfg_written LOCALBASE interfaces h h'
    /\ host_events h' =
       host_events h
       ++ map (fun i =>
                 HostLog INFO "Created ifcfg file for interface %s." [Name i])
            interfaces.
Proof.
  revert h. induction interfaces as [|i l IH]; intros h.
  - exists h. split_and!; [done | | by rewrite app_nil_r].
    split; [intros i Hi; by apply elem_of_nil in Hi | done].
  - rewrite WriteIfcfg_cons.
    match goal with |- context [Sles12._WriteIfcfg _ l ?h1] =>
      destruct (IH h1) as (h' & -> & [Hin Hout] & Hev) end.
    exists h'. split_and!; [done | | ].
    + split.
      * intros j Hj. destruct (decide (j ∈ l)) as [Hl | Hl]; [by apply Hin |].
        apply elem_of_cons in Hj as [-> | Hj]; [| done].
        rewrite Hout.
        -- simpl. apply lookup_insert_eq.
        -- intros k Hk E. apply ifcfg_file_inj in E. by subst.
      * intros name Hname. rewrite Hout.
        -- simpl. apply lookup_insert_ne, not_eq_sym, Hname. by constructor.
        -- intros k Hk. apply Hname. by constructor.
    + rewrite Hev. simpl. by rewrite <- app_assoc.
Qed.
End Sles12Properties.

(** X12. Given no device but [eth0] (or none at all),
    [EnableNetworkInterfaces] of SUSE 12 and of SUSE 11 does nothing:
    no log line, no file, no command. *)
Theorem EnableNetworkInterfaces_only_eth0
    (status : list host_event -> list string -> option exn)
    (LOCALBASE : string) (interfaces : list string) (h : Host) :
  (forall i, i ∈ interfaces -> i = "eth0") ->
  Sles12.EnableNetworkInterfaces status LOCALBASE interfaces h
  = (Returns tt, h)
  /\ Sles11.EnableNetworkInterfaces status interfaces h = (Returns tt, h).
Proof.
  intros Hall.
  unfold Sles12.EnableNetworkInterfaces, Sles11.EnableNetworkInterfaces.
  by rewrite (interfaces_to_up_nil interfaces Hall).
Qed.

Lemma EnableNetworkInterfaces_only_eth0_witness :
  Sles12.EnableNetworkInterfaces all_missing "" ["eth0"; "eth0"] bare_host
  = (Returns tt, bare_host)
  /\ Sles11.EnableNetworkInterfaces all_missing ["eth0"; "eth0"] bare_host
     = (Returns tt, bare_host).
Proof.
  apply (EnableNetworkInterfaces_only_eth0 all_missing "" ["eth0"; "eth0"]
           bare_host).
  intros i Hi. apply elem_of_cons in Hi as [-> | Hi]; [reflexivity |].
  apply elem_of_cons in Hi as [-> | Hi]; [reflexivity |].
  by apply elem_of_nil in Hi.
Defined.

(** X13. However the [wicked] command ends, after
    [EnableNetworkInterfaces] of SUSE 12 every device given other than
    [eth0] has its file [ifcfg-<device>] under
    [LOCALBASE/etc/sysconfig/network], overwritten with the five lines
    for it, and every other file, the one of [eth0] among them, is as it
    was. *)
Theorem Sles12_EnableNetworkInterfaces_files
    (status : list host_event -> list string -> option exn)
    (LOCALBASE : string) (interfaces : list string) (h : Host) :
  exists r h',
    Sles12.EnableNetworkInterfaces status LOCALBASE interfaces h = (r, h')
    /\ ifcfg_written LOCALBASE (interfaces_to_up interfaces) h h'
    /\ host_files h' !! ifcfg_file LOCALBASE "eth0"
       = host_files h !! ifcfg_file LOCALBASE "eth0".
Proof.
  assert (Heth : forall h' : Host,
            ifcfg_written LOCALBASE (interfaces_to_up interfaces) h h' ->
            host_files h' !! ifcfg_file LOCALBASE "eth0"
            = host_files h !! ifcfg_file LOCALBASE "eth0").
  { intros h' [_ Hout]. apply Hout. intros i Hi E.
    apply ifcfg_file_inj in E. apply interfaces_to_up_spec in Hi as [_ Hne].
    by subst. }
  unfold Sles12.EnableNetworkInterfaces.
  destruct (interfaces_to_up interfaces) as [|i ups] eqn:Eups.
  { exists (Returns tt), h. split; [done |].
    assert (Hw : ifcfg_written LOCALBASE [] h h).
    { split; [intros i Hi; by apply elem_of_nil in Hi | done]. }
    split; [exact Hw | by apply Heth]. }
  unfold bind at 1. unfold host_info at 1. unfold bind at 1.
  match goal with |- context [Sles12._WriteIfcfg _ ?l ?h1] =>
    destruct (WriteIfcfg_run LOCALBASE l h1) as (h2 & -> & Hw & _) end.
  unfold Sles12._Ifup, try_except, check_call.
  assert (Hh : forall ev, ifcfg_written LOCALBASE (i :: ups) h
                            (host_emit ev h2))
    by (intros ev; exact Hw).
  destruct (status (host_events h2) _) as [e|]; simpl.
  - destruct (is_CalledProcessError e); simpl;
      eexists _, _; (split; [done |]); (split; [apply Hh | apply Heth, Hh]).
  - eexists _, _. split; [done |]. split; [apply Hh | apply Heth, Hh].
Qed.



